(** * video-cosmos: the frontend API client (frontend/lib/api.ts)

    A shallow embedding of the client: the Token/User Store over
    [localStorage], the request executor [apiRequest] and the endpoint
    functions built on it, followed by the properties of the client's
    specification.

    Conventions.
    - A JavaScript string is a [string]: its bytes are the UTF-8 form of
      the text.  The client only concatenates strings, tests them for
      emptiness and hands them to the host.
    - An [async] function is run to completion: the client is single
      threaded and every function awaits at most one request.
    - What the host provides ([JSON.parse], [JSON.stringify], [fetch],
      [process.env]) is a parameter, the class [Host]. *)

From Stdlib Require Import ZArith NArith Ascii String.
From stdpp Require Import gmap strings list fin_maps pretty.

Local Open Scope Z_scope.
Local Open Scope string_scope.
Set Warnings "-register-all".

(** ** JavaScript values *)

(** The values the client handles: what [JSON.parse] produces, and
    [undefined] (a missing property).  Numbers are the integers. *)
Inductive value : Type :=
  | VUndefined
  | VNull
  | VBool (b : bool)
  | VNum (n : Z)
  | VStr (s : string)
  | VArr (items : list value)
  | VObj (fields : list (string * value)).

(** Every JavaScript string but the empty one is truthy. *)
Definition truthy_string (s : string) : bool :=
  match s with
  | EmptyString => false
  | String _ _ => true
  end.

(** ToBoolean. *)
Definition truthy (v : value) : bool :=
  match v with
  | VUndefined | VNull => false
  | VBool b => b
  | VNum n => negb (n =? 0)%Z
  | VStr s => truthy_string s
  | VArr _ | VObj _ => true
  end.

(** [a || b]. *)
Definition js_or (a b : value) : value := if truthy a then a else b.

(** [a || b] where [a] is [string | undefined] and [b] a string. *)
Definition or_default (a : option string) (b : string) : string :=
  match a with
  | Some s => if truthy_string s then s else b
  | None => b
  end.

(** Number to string, as a template literal renders an integer. *)
Definition number_to_string (n : Z) : string := pretty n.

(** ToString.  An array is its elements joined by commas, an absent or
    null element giving the empty string; a plain object, one with no
    [toString] property of its own, is [[object Object]]. *)
Fixpoint ToString (v : value) : string :=
  match v with
  | VUndefined => "undefined"
  | VNull => "null"
  | VBool true => "true"
  | VBool false => "false"
  | VNum n => number_to_string n
  | VStr s => s
  | VArr items =>
      let element (x : value) : string :=
        match x with
        | VUndefined | VNull => ""
        | _ => ToString x
        end in
      (fix join (l : list value) : string :=
         match l with
         | [] => ""
         | [x] => element x
         | x :: rest => element x ++ "," ++ join rest
         end) items
  | VObj _ => "[object Object]"
  end.

(** An own property of an object literal, the first entry of that name. *)
Fixpoint own_property (fields : list (string * value)) (name : string)
  : option value :=
  match fields with
  | [] => None
  | (k, v) :: rest => if String.eqb k name then Some v else own_property rest name
  end.

(** ** Completions and what is thrown *)

(** What the client can throw or reject with: the [Error] it builds
    itself (line 75), a [TypeError] (a property of [null] or [undefined]
    is read), a [SyntaxError] (text that is not JSON), and whatever
    [fetch] rejects with. *)
Inductive thrown : Type :=
  | Error (message : string)
  | TypeError
  | SyntaxError
  | FetchFailure (reason : string).

Inductive completion (A : Type) : Type :=
  | Normal (a : A)
  | Throw (e : thrown).
Arguments Normal {A} a.
Arguments Throw {A} e.

(** ** Requests and responses *)

(** A [File] of the browser: a name and its bytes. *)
Record File : Type := mkFile {
  file_name : string;
  file_bytes : list Byte.byte
}.

(** An entry of a [FormData]: text or a file. *)
Inductive form_value : Type :=
  | FormText (s : string)
  | FormFile (f : File).

(** The [body] of a request: absent, a string, or a [FormData], which is
    the list of its entries in the order they were appended. *)
Inductive body_init : Type :=
  | NoBody
  | TextBody (s : string)
  | FormDataBody (entries : list (string * form_value)).

(** [RequestInit], as far as the client fills it. *)
Record RequestInit : Type := mkInit {
  method : option string;
  headers : option (gmap string string);
  body : body_init
}.

(** [options = {}]. *)
Definition no_options : RequestInit :=
  {| method := None; headers := None; body := NoBody |}.

(** What [fetch] is called with. *)
Record request : Type := mkRequest {
  url : string;
  init : RequestInit
}.

(** A [Response]: its status and the text of its body. *)
Record response : Type := mkResponse {
  status : Z;
  body_text : string
}.

(** [response.ok]: the status is in the range 200 to 299. *)
Definition ok (r : response) : bool :=
  (200 <=? status r)%Z && (status r <=? 299)%Z.

Inductive fetch_outcome : Type :=
  | Responded (r : response)
  | Rejected (e : thrown).

(** ** The world *)

(** What the client does to its environment, in order. *)
Inductive event : Type :=
  | EvGetItem (key : string)
  | EvSetItem (key val : string)
  | EvRemoveItem (key : string)
  | EvFetch (r : request).

(** [window] tells whether [typeof window] is not ["undefined"];
    [localStorage] is the storage of the browser, reachable only then;
    [events] is the history. *)
Record world : Type := mkWorld {
  window : bool;
  localStorage : gmap string string;
  events : list event
}.

(** ** The host *)

(** [JSON_parse s] is [None] when [JSON.parse] throws its [SyntaxError];
    [JSON_stringify v] is [None] when [JSON.stringify] returns
    [undefined]; [NEXT_PUBLIC_API_URL] is the environment variable;
    [backend] answers a request, knowing the history.  The empty string
    is not JSON. *)
Class Host : Type := mkHost {
  JSON_parse : string -> option value;
  JSON_stringify : value -> option string;
  NEXT_PUBLIC_API_URL : option string;
  backend : list event -> request -> fetch_outcome;
  JSON_parse_empty : JSON_parse "" = None
}.

(** ** The monad of the client *)

(** A computation reads and changes the world and completes normally or
    by throwing. *)
Definition M (A : Type) : Type := world -> completion A * world.

#[global] Instance M_ret : MRet M :=
  fun A (a : A) (w : world) => (Normal a, w).

#[global] Instance M_bind : MBind M :=
  fun A B (k : A -> M B) (m : M A) (w : world) =>
    match m w with
    | (Normal a, w') => k a w'
    | (Throw e, w') => (Throw e, w')
    end.

(** [throw e]. *)
Definition throw {A : Type} (e : thrown) : M A :=
  fun w => (Throw e, w).

(** [try { m } catch (e) { handler e }], and [promise.catch(handler)]. *)
Definition catch {A : Type} (m : M A) (handler : thrown -> M A) : M A :=
  fun w =>
    match m w with
    | (Normal a, w') => (Normal a, w')
    | (Throw e, w') => handler e w'
    end.

(** The world with one more event in its history. *)
Definition record_event (e : event) (w : world) : world :=
  {| window := window w;
     localStorage := localStorage w;
     events := (events w ++ [e])%list |}.

(** [typeof window === "undefined"]. *)
Definition typeof_window_is_undefined : M bool :=
  fun w => (Normal (negb (window w)), w).

(** [localStorage.getItem(key)]: the stored string, or [null].  The
    storage is taken to be granted and not full: its operations
    complete. *)
Definition localStorage_getItem (key : string) : M (option string) :=
  fun w => (Normal (localStorage w !! key), record_event (EvGetItem key) w).

(** [localStorage.setItem(key, val)]. *)
Definition localStorage_setItem (key val : string) : M unit :=
  fun w =>
    (Normal tt,
     {| window := window w;
        localStorage := <[key := val]> (localStorage w);
        events := (events w ++ [EvSetItem key val])%list |}).

(** [localStorage.removeItem(key)]. *)
Definition localStorage_removeItem (key : string) : M unit :=
  fun w =>
    (Normal tt,
     {| window := window w;
        localStorage := delete key (localStorage w);
        events := (events w ++ [EvRemoveItem key])%list |}).

(** The value and the world a computation ends with. *)
Definition result_of {A : Type} (m : M A) (w : world) : completion A := fst (m w).
Definition world_after {A : Type} (m : M A) (w : world) : world := snd (m w).

Section Client.
Context {host : Host}.

(** [JSON.parse(s)], throwing on text that is not JSON. *)
Definition json_parse (s : string) : M value :=
  match JSON_parse s with
  | Some v => mret v
  | None => throw SyntaxError
  end.

(** ** Token management (lines 18 to 52) *)

Definition getToken : M (option string) :=
  undef ← typeof_window_is_undefined;
  if undef : bool then mret None
  else localStorage_getItem "access_token".

Definition setToken (token : string) : M unit :=
  undef ← typeof_window_is_undefined;
  if undef : bool then mret tt
  else localStorage_setItem "access_token" token.

Definition removeToken : M unit :=
  undef ← typeof_window_is_undefined;
  if undef : bool then mret tt
  else localStorage_removeItem "access_token".

(** [null] is [VNull]; [!userStr] holds of [null] and of the empty
    string. *)
Definition getUser : M value :=
  undef ← typeof_window_is_undefined;
  if undef : bool then mret VNull
  else
    userStr ← localStorage_getItem "user";
    match userStr with
    | None => mret VNull
    | Some s =>
        if negb (truthy_string s) then mret VNull
        else catch (json_parse s) (fun _ => mret VNull)
    end.

(** [setItem] stores the string form of its argument: of [undefined],
    when [JSON.stringify] returns that. *)
Definition setUser (user : value) : M unit :=
  undef ← typeof_window_is_undefined;
  if undef : bool then mret tt
  else
    localStorage_setItem "user"
      (default (ToString VUndefined) (JSON_stringify user)).

Definition removeUser : M unit :=
  undef ← typeof_window_is_undefined;
  if undef : bool then mret tt
  else localStorage_removeItem "user".

(** ** The request executor (lines 15 and 55 to 79) *)

Definition API_BASE_URL : string :=
  or_default NEXT_PUBLIC_API_URL "http://localhost:8000".

(** [{...(h as Record<string, string>)}], for [h] a plain object or
    absent. *)
Definition spread (h : option (gmap string string)) : gmap string string :=
  default ∅ h.

(** The headers of the request (lines 59 to 66), [token] being what
    [getToken] returned. *)
Definition request_headers (token : option string) (options : RequestInit)
  : gmap string string :=
  let headers := spread (headers options) in
  match token with
  | Some t =>
      if truthy_string t then <["Authorization" := "Bearer " ++ t]> headers
      else headers
  | None => headers
  end.

(** What [fetch] is called with (lines 68 to 71): the options, with the
    headers just built. *)
Definition request_for (token : option string) (endpoint : string)
    (options : RequestInit) : request :=
  {| url := API_BASE_URL ++ endpoint;
     init := {| method := method options;
                headers := Some (request_headers token options);
                body := body options |} |}.

(** [fetch]: the request is issued, and the backend answers or the
    request fails. *)
Definition fetch (r : request) : M response :=
  fun w =>
    match backend (events w) r with
    | Responded resp => (Normal resp, record_event (EvFetch r) w)
    | Rejected e => (Throw e, record_event (EvFetch r) w)
    end.

(** [response.json()]. *)
Definition response_json (r : response) : M value :=
  json_parse (body_text r).

(** [v.name], for a name that no prototype defines ([detail],
    [access_token], [user]): the own property of an object, [undefined]
    on every other value but [null] and [undefined], where the read
    throws. *)
Definition get_property (v : value) (name : string) : M value :=
  match v with
  | VUndefined | VNull => throw TypeError
  | VObj fields => mret (default VUndefined (own_property fields name))
  | _ => mret VUndefined
  end.

Definition apiRequest (endpoint : string) (options : RequestInit) : M value :=
  token ← getToken;
  response ← fetch (request_for token endpoint options);
  if negb (ok response) then
    error ← catch (response_json response)
      (fun _ => mret (VObj [("detail", VStr "An error occurred")]));
    detail ← get_property error "detail";
    throw (Error (ToString (js_or detail
      (VStr ("HTTP error! status: " ++ number_to_string (status response))))))
  else response_json response.

End Client.

(** ** Form encodings *)

(** A [URLSearchParams]: its pairs, in the order they were appended. *)
Definition URLSearchParams : Type := list (string * string).

(** A hexadecimal digit, in upper case. *)
Definition hex_digit (n : N) : ascii :=
  ascii_of_N (if (n <? 10)%N then 48 + n else 55 + n)%N.

(** The bytes the form encoding leaves as they are: the letters and
    digits of ASCII and [*], [-], [.] and [_]. *)
Definition form_safe (n : N) : bool :=
  ((48 <=? n) && (n <=? 57) || (65 <=? n) && (n <=? 90)
   || (97 <=? n) && (n <=? 122)
   || (n =? 42) || (n =? 45) || (n =? 46) || (n =? 95))%N.

(** One byte in [application/x-www-form-urlencoded]: a space is [+],
    every byte that is not safe is [%] and two digits. *)
Definition form_byte (c : ascii) : string :=
  let n := N_of_ascii c in
  if (n =? 32)%N then "+"
  else if form_safe n then String c ""
  else String "%" (String (hex_digit (n / 16)) (String (hex_digit (n mod 16)) "")).

Fixpoint form_encode (s : string) : string :=
  match s with
  | EmptyString => ""
  | String c rest => form_byte c ++ form_encode rest
  end.

(** [params.toString()]. *)
Fixpoint URLSearchParams_toString (params : URLSearchParams) : string :=
  match params with
  | [] => ""
  | [(k, v)] => form_encode k ++ "=" ++ form_encode v
  | (k, v) :: rest =>
      form_encode k ++ "=" ++ form_encode v ++ "&" ++ URLSearchParams_toString rest
  end.

(** [formData.append(name, v)], for both kinds of form. *)
Definition append {A : Type} (form : list (string * A)) (name : string) (v : A)
  : list (string * A) :=
  (form ++ [(name, v)])%list.

(** [formData.getAll(name)]. *)
Fixpoint getAll {A : Type} (form : list (string * A)) (name : string) : list A :=
  match form with
  | [] => []
  | (k, v) :: rest =>
      if String.eqb k name then v :: getAll rest name else getAll rest name
  end.

(** Whether every character of [s] satisfies [p]. *)
Fixpoint all_chars (p : ascii -> bool) (s : string) : bool :=
  match s with
  | EmptyString => true
  | String c rest => p c && all_chars p rest
  end.

(** The characters a form-encoded name or value is made of: the safe
    ones, [+] and [%]. *)
Definition form_text_char (c : ascii) : bool :=
  form_safe (N_of_ascii c) || Ascii.eqb c "+" || Ascii.eqb c "%".

(** ** The arguments of the endpoint functions *)

(** Modelled from the spec: the types [RegisterData], [LoginData] and
    [UploadVideoData] are declared in the module [@/types], which is not
    part of the source at hand.  The fields are those the client reads;
    the spec gives register the form fields username, email and password,
    login username and password, and uploadVideo title, file, an optional
    recipe and an optional visibility. *)
Record RegisterData : Type := mkRegisterData {
  register_username : string;
  register_email : string;
  register_password : string
}.

Record LoginData : Type := mkLoginData {
  login_username : string;
  login_password : string
}.

Record UploadVideoData : Type := mkUploadVideoData {
  title : string;
  file : File;
  recipe : option string;
  visibility : option string
}.

(** Whether the code of [c] is between [lo] and [hi]. *)
Definition in_range (lo hi : N) (c : ascii) : bool :=
  ((lo <=? N_of_ascii c) && (N_of_ascii c <=? hi))%N.

(** Whether the bytes of [s] are well-formed UTF-8 (the Unicode standard,
    table 3-7): those are the [string]s that stand for a JavaScript string
    with no unpaired surrogate. *)
Fixpoint well_formed_utf8 (s : string) : bool :=
  match s with
  | EmptyString => true
  | String b0 rest =>
      if in_range 0 127 b0 then well_formed_utf8 rest
      else if in_range 194 223 b0 then
        match rest with
        | String b1 rest' => in_range 128 191 b1 && well_formed_utf8 rest'
        | _ => false
        end
      else if in_range 224 239 b0 then
        match rest with
        | String b1 (String b2 rest') =>
            (if in_range 224 224 b0 then in_range 160 191 b1
             else if in_range 237 237 b0 then in_range 128 159 b1
             else in_range 128 191 b1)
            && in_range 128 191 b2 && well_formed_utf8 rest'
        | _ => false
        end
      else if in_range 240 244 b0 then
        match rest with
        | String b1 (String b2 (String b3 rest')) =>
            (if in_range 240 240 b0 then in_range 144 191 b1
             else if in_range 244 244 b0 then in_range 128 143 b1
             else in_range 128 191 b1)
            && in_range 128 191 b2 && in_range 128 191 b3
            && well_formed_utf8 rest'
        | _ => false
        end
      else false
  end.

(** The fields of a call are well-formed text. *)
Definition well_formed_login (d : LoginData) : bool :=
  well_formed_utf8 (login_username d) && well_formed_utf8 (login_password d).

Definition well_formed_register (d : RegisterData) : bool :=
  well_formed_utf8 (register_username d) && well_formed_utf8 (register_email d)
  && well_formed_utf8 (register_password d).

(** The endpoint functions and their arguments. *)
Inductive endpoint_call : Type :=
  | CallRegister (data : RegisterData)
  | CallLogin (data : LoginData)
  | CallGetCurrentUser
  | CallListVideos
  | CallGetVideo (videoId : string)
  | CallGetVideoStream (videoId : string)
  | CallUploadVideo (data : UploadVideoData)
  | CallGetUserProfile (userId : string)
  | CallGetUserVideos (userId : string)
  | CallFollowUser (userId : string)
  | CallUnfollowUser (userId : string)
  | CallGetFollowers (userId : string)
  | CallGetFollowing (userId : string)
  | CallGetFeed.

(** Whether a call is a call of [login]. *)
Definition is_login (c : endpoint_call) : bool :=
  match c with
  | CallLogin _ => true
  | _ => false
  end.

Section Endpoints.
Context {host : Host}.

(** ** Authentication endpoints (lines 82 to 120) *)

Definition register (data : RegisterData) : M value :=
  let formData : URLSearchParams := [] in
  let formData := append formData "username" (register_username data) in
  let formData := append formData "email" (register_email data) in
  let formData := append formData "password" (register_password data) in
  apiRequest "/auth/register"
    {| method := Some "POST";
       headers := Some {[ "Content-Type" := "application/x-www-form-urlencoded" ]};
       body := TextBody (URLSearchParams_toString formData) |}.

(** The form that [login] sends. *)
Definition login_form (data : LoginData) : URLSearchParams :=
  let formData : URLSearchParams := [] in
  let formData := append formData "username" (login_username data) in
  let formData := append formData "password" (login_password data) in
  append formData "grant_type" "password".

(** The options [login] calls [apiRequest] with. *)
Definition login_options (data : LoginData) : RequestInit :=
  {| method := Some "POST";
     headers := Some {[ "Content-Type" := "application/x-www-form-urlencoded" ]};
     body := TextBody (URLSearchParams_toString (login_form data)) |}.

(** [setToken] is handed [token.access_token] as it is; what is not a
    string becomes one when [setItem] stores it, which is [ToString]
    here. *)
Definition login (data : LoginData) : M value :=
  token ← apiRequest "/auth/login" (login_options data);
  access_token ← get_property token "access_token";
  _ ← setToken (ToString access_token);
  user ← get_property token "user";
  _ ← setUser user;
  mret token.

Definition getCurrentUser : M value := apiRequest "/auth/me" no_options.

(** ** Video endpoints (lines 123 to 148) *)

Definition listVideos : M value := apiRequest "/videos" no_options.

Definition getVideo (videoId : string) : M value :=
  apiRequest ("/videos/" ++ videoId) no_options.

Definition getVideoStream (videoId : string) : M value :=
  apiRequest ("/videos/" ++ videoId ++ "/stream") no_options.

(** The form that [uploadVideo] sends. *)
Definition upload_form (data : UploadVideoData) : list (string * form_value) :=
  let formData : list (string * form_value) := [] in
  let formData := append formData "title" (FormText (title data)) in
  let formData := append formData "file" (FormFile (file data)) in
  let formData :=
    match recipe data with
    | Some r =>
        if truthy_string r then append formData "recipe" (FormText r)
        else formData
    | None => formData
    end in
  append formData "visibility" (FormText (or_default (visibility data) "public")).

Definition uploadVideo (data : UploadVideoData) : M value :=
  apiRequest "/videos"
    {| method := Some "POST";
       headers := None;
       body := FormDataBody (upload_form data) |}.

(** ** User endpoints (lines 151 to 177) *)

Definition getUserProfile (userId : string) : M value :=
  apiRequest ("/users/" ++ userId) no_options.

Definition getUserVideos (userId : string) : M value :=
  apiRequest ("/users/" ++ userId ++ "/videos") no_options.

Definition followUser (userId : string) : M value :=
  apiRequest ("/users/" ++ userId ++ "/follow")
    {| method := Some "POST"; headers := None; body := NoBody |}.

Definition unfollowUser (userId : string) : M value :=
  apiRequest ("/users/" ++ userId ++ "/follow")
    {| method := Some "DELETE"; headers := None; body := NoBody |}.

Definition getFollowers (userId : string) : M value :=
  apiRequest ("/users/" ++ userId ++ "/followers") no_options.

Definition getFollowing (userId : string) : M value :=
  apiRequest ("/users/" ++ userId ++ "/following") no_options.

(** ** Feed endpoint (lines 180 to 182) *)

Definition getFeed : M value := apiRequest "/feed" no_options.

(** ** A call of the client *)

Definition run_call (c : endpoint_call) : M value :=
  match c with
  | CallRegister data => register data
  | CallLogin data => login data
  | CallGetCurrentUser => getCurrentUser
  | CallListVideos => listVideos
  | CallGetVideo videoId => getVideo videoId
  | CallGetVideoStream videoId => getVideoStream videoId
  | CallUploadVideo data => uploadVideo data
  | CallGetUserProfile userId => getUserProfile userId
  | CallGetUserVideos userId => getUserVideos userId
  | CallFollowUser userId => followUser userId
  | CallUnfollowUser userId => unfollowUser userId
  | CallGetFollowers userId => getFollowers userId
  | CallGetFollowing userId => getFollowing userId
  | CallGetFeed => getFeed
  end.

(** The world after the calls [cs], made one after the other; the
    caller goes on after a call that failed. *)
Fixpoint run_calls (cs : list endpoint_call) (w : world) : world :=
  match cs with
  | [] => w
  | c :: rest => run_calls rest (world_after (run_call c) w)
  end.

End Endpoints.

(** ** A host to run the client on

    A reader and a writer of JSON text over ASCII with integer numbers;
    [sample env answer] is the host made of the two, of the environment
    variable [env] and of the backend [answer].  The theorems hold of
    every host; this one runs the client on concrete inputs. *)
Module SampleHost.

Local Open Scope char_scope.

(** The double quote. *)
Definition dq : ascii := "034".

Definition is_space (c : ascii) : bool :=
  let n := N_of_ascii c in ((n =? 32) || (n =? 9) || (n =? 10) || (n =? 13))%N.

Definition is_digit (c : ascii) : bool :=
  let n := N_of_ascii c in ((48 <=? n) && (n <=? 57))%N.

Fixpoint skip_space (s : string) : string :=
  match s with
  | String c rest => if is_space c then skip_space rest else s
  | EmptyString => s
  end.

(** The rest of [s] after the prefix [p], when [s] starts with it. *)
Fixpoint after_prefix (p s : string) : option string :=
  match p, s with
  | EmptyString, _ => Some s
  | String a p', String b s' => if Ascii.eqb a b then after_prefix p' s' else None
  | String _ _, EmptyString => None
  end.

(** The value of a hexadecimal digit. *)
Definition hex_value (c : ascii) : option N :=
  let n := N_of_ascii c in
  if is_digit c then Some (n - 48)%N
  else if ((97 <=? n) && (n <=? 102))%N then Some (n - 87)%N
  else if ((65 <=? n) && (n <=? 70))%N then Some (n - 55)%N
  else None.

(** The character an escape letter stands for. *)
Definition unescape (c : ascii) : option ascii :=
  if Ascii.eqb c dq then Some dq
  else if Ascii.eqb c "\" then Some "\"
  else if Ascii.eqb c "/" then Some "/"
  else if Ascii.eqb c "b" then Some "008"
  else if Ascii.eqb c "f" then Some "012"
  else if Ascii.eqb c "n" then Some "010"
  else if Ascii.eqb c "r" then Some "013"
  else if Ascii.eqb c "t" then Some "009"
  else None.

(** The characters of a string literal after its opening quote, and what
    follows the closing quote.  A [\u] escape is read when it names an
    ASCII character. *)
Fixpoint read_chars (s : string) : option (string * string) :=
  match s with
  | EmptyString => None
  | String c rest =>
      if Ascii.eqb c dq then Some (EmptyString, rest)
      else if Ascii.eqb c "\" then
        match rest with
        | String "u" (String h3 (String h2 (String h1 (String h0 rest')))) =>
            match hex_value h3, hex_value h2, hex_value h1, hex_value h0 with
            | Some 0%N, Some 0%N, Some a, Some b =>
                if (a <? 8)%N then
                  match read_chars rest' with
                  | Some (str, tail) => Some (String (ascii_of_N (16 * a + b)) str, tail)
                  | None => None
                  end
                else None
            | _, _, _, _ => None
            end
        | String e rest' =>
            match unescape e, read_chars rest' with
            | Some ch, Some (str, tail) => Some (String ch str, tail)
            | _, _ => None
            end
        | EmptyString => None
        end
      else if (N_of_ascii c <? 32)%N then None
      else
        match read_chars rest with
        | Some (str, tail) => Some (String c str, tail)
        | None => None
        end
  end.

(** The digits at the start of [s], as a number, and the rest. *)
Fixpoint read_digits (acc : Z) (s : string) : Z * string :=
  match s with
  | String c rest =>
      if is_digit c then read_digits (10 * acc + Z.of_N (N_of_ascii c - 48)) rest
      else (acc, s)
  | EmptyString => (acc, s)
  end.

(** An integer with no leading zero, no fraction and no exponent. *)
Definition read_natural (s : string) : option (Z * string) :=
  match s with
  | String c rest =>
      if negb (is_digit c) then None
      else
        let '(n, tail) := read_digits 0 s in
        let leading_zero :=
          Ascii.eqb c "0" && match rest with
                             | String d _ => is_digit d
                             | EmptyString => false
                             end in
        let continues :=
          match tail with
          | String d _ => Ascii.eqb d "." || Ascii.eqb d "e" || Ascii.eqb d "E"
          | EmptyString => false
          end in
        if leading_zero || continues then None else Some (n, tail)
  | EmptyString => None
  end.

Definition read_number (s : string) : option (value * string) :=
  match s with
  | String "-" rest =>
      match read_natural rest with
      | Some (n, tail) => Some (VNum (- n), tail)
      | None => None
      end
  | _ =>
      match read_natural s with
      | Some (n, tail) => Some (VNum n, tail)
      | None => None
      end
  end.

(** [fields] with the property [k] set to [v]: a later member of the
    same name replaces the earlier one. *)
Fixpoint set_property (fields : list (string * value)) (k : string) (v : value)
  : list (string * value) :=
  match fields with
  | [] => [(k, v)]
  | (k', v') :: rest =>
      if String.eqb k' k then (k', v) :: rest else (k', v') :: set_property rest k v
  end.

(** A value at the start of [s], and the rest; [fuel] bounds the calls. *)
Fixpoint read_value (fuel : nat) (s : string) : option (value * string) :=
  match fuel with
  | O => None
  | S fuel =>
      match skip_space s with
      | String "n" rest => (fun tail => (VNull, tail)) <$> after_prefix "ull" rest
      | String "t" rest => (fun tail => (VBool true, tail)) <$> after_prefix "rue" rest
      | String "f" rest => (fun tail => (VBool false, tail)) <$> after_prefix "alse" rest
      | String "[" rest =>
          match skip_space rest with
          | String "]" tail => Some (VArr [], tail)
          | _ =>
              match read_elements fuel rest with
              | Some (items, tail) => Some (VArr items, tail)
              | None => None
              end
          end
      | String "{" rest =>
          match skip_space rest with
          | String "}" tail => Some (VObj [], tail)
          | _ =>
              match read_members fuel [] rest with
              | Some (fields, tail) => Some (VObj fields, tail)
              | None => None
              end
          end
      | String c rest =>
          if Ascii.eqb c dq then
            match read_chars rest with
            | Some (str, tail) => Some (VStr str, tail)
            | None => None
            end
          else read_number (String c rest)
      | EmptyString => None
      end
  end
with read_elements (fuel : nat) (s : string) : option (list value * string) :=
  match fuel with
  | O => None
  | S fuel =>
      match read_value fuel s with
      | Some (v, rest) =>
          match skip_space rest with
          | String "," rest' =>
              match read_elements fuel rest' with
              | Some (items, tail) => Some (v :: items, tail)
              | None => None
              end
          | String "]" tail => Some ([v], tail)
          | _ => None
          end
      | None => None
      end
  end
with read_members (fuel : nat) (seen : list (string * value)) (s : string)
  : option (list (string * value) * string) :=
  match fuel with
  | O => None
  | S fuel =>
      match skip_space s with
      | String c rest =>
          if negb (Ascii.eqb c dq) then None
          else
            match read_chars rest with
            | Some (k, rest1) =>
                match skip_space rest1 with
                | String ":" rest2 =>
                    match read_value fuel rest2 with
                    | Some (v, rest3) =>
                        let fields := set_property seen k v in
                        match skip_space rest3 with
                        | String "," rest4 => read_members fuel fields rest4
                        | String "}" tail => Some (fields, tail)
                        | _ => None
                        end
                    | None => None
                    end
                | _ => None
                end
            | None => None
            end
      | EmptyString => None
      end
  end.

(** The value a text stands for, when all of it is one value. *)
Definition parse (s : string) : option value :=
  match read_value (2 * String.length s + 2) s with
  | Some (v, rest) =>
      match skip_space rest with
      | EmptyString => Some v
      | String _ _ => None
      end
  | None => None
  end.

(** A character inside a string literal, as [JSON.stringify] writes it. *)
Definition write_char (c : ascii) : string :=
  if Ascii.eqb c dq then String "\" (String dq EmptyString)
  else if Ascii.eqb c "\" then String "\" (String "\" EmptyString)
  else if Ascii.eqb c "008" then String "\" (String "b" EmptyString)
  else if Ascii.eqb c "012" then String "\" (String "f" EmptyString)
  else if Ascii.eqb c "010" then String "\" (String "n" EmptyString)
  else if Ascii.eqb c "013" then String "\" (String "r" EmptyString)
  else if Ascii.eqb c "009" then String "\" (String "t" EmptyString)
  else if (N_of_ascii c <? 32)%N then
    String "\" (String "u" (String "0" (String "0"
      (String (if (N_of_ascii c <? 16)%N then "0" else "1")
         (String (let d := (N_of_ascii c mod 16)%N in
                  ascii_of_N (if (d <? 10)%N then 48 + d else 87 + d)%N)
            EmptyString)))))
  else String c EmptyString.

Fixpoint write_chars (s : string) : string :=
  match s with
  | EmptyString => EmptyString
  | String c rest => (write_char c ++ write_chars rest)%string
  end.

Definition quote (s : string) : string :=
  String dq (write_chars s ++ String dq EmptyString)%string.

Local Open Scope string_scope.

(** The text of a value; [undefined] has none of its own, is [null] in an
    array and is left out of an object. *)
Fixpoint write (v : value) : option string :=
  match v with
  | VUndefined => None
  | VNull => Some "null"
  | VBool true => Some "true"
  | VBool false => Some "false"
  | VNum n => Some (number_to_string n)
  | VStr s => Some (quote s)
  | VArr items =>
      let element (x : value) : string := default "null" (write x) in
      Some ("[" ++
        (fix join (l : list value) : string :=
           match l with
           | [] => ""
           | [x] => element x
           | x :: rest => element x ++ "," ++ join rest
           end) items ++ "]")
  | VObj fields =>
      Some ("{" ++
        (fix join (first : bool) (l : list (string * value)) : string :=
           match l with
           | [] => ""
           | (k, x) :: rest =>
               match write x with
               | Some text =>
                   (if first then "" else ",") ++ quote k ++ ":" ++ text
                   ++ join false rest
               | None => join first rest
               end
           end) true fields ++ "}")
  end.

(** The host whose backend is [answer] and whose environment variable is
    [env]. *)
Definition sample (env : option string)
    (answer : list event -> request -> fetch_outcome) : Host :=
  {| JSON_parse := parse;
     JSON_stringify := write;
     NEXT_PUBLIC_API_URL := env;
     backend := answer;
     JSON_parse_empty := eq_refl |}.

(** A backend that gives every request the same answer. *)
Definition always (o : fetch_outcome) : list event -> request -> fetch_outcome :=
  fun _ _ => o.

End SampleHost.

(** ** Observations *)

(** The requests in a history, in order. *)
Fixpoint fetches (evs : list event) : list request :=
  match evs with
  | [] => []
  | EvFetch r :: rest => r :: fetches rest
  | _ :: rest => fetches rest
  end.

(** The writes to the storage in a history, in order. *)
Fixpoint storage_writes (evs : list event) : list event :=
  match evs with
  | [] => []
  | EvSetItem k v :: rest => EvSetItem k v :: storage_writes rest
  | EvRemoveItem k :: rest => EvRemoveItem k :: storage_writes rest
  | _ :: rest => storage_writes rest
  end.

(** A header of a request, in the record handed to [fetch]: names are
    property names, so their case counts. *)
Definition header (r : request) (name : string) : option string :=
  spread (headers (init r)) !! name.

(** Whether [needle] occurs in [text]. *)
Fixpoint mentions (needle text : string) : bool :=
  String.prefix needle text ||
  match text with
  | EmptyString => false
  | String _ rest => mentions needle rest
  end.

Section Answer.
Context {host : Host}.

(** The token [apiRequest] sees in the world [w]. *)
Definition token_seen (w : world) : option string :=
  match getToken w with
  | (Normal token, _) => token
  | (Throw _, _) => None
  end.

(** How the backend answers the request that [apiRequest endpoint
    options] issues in the world [w]. *)
Definition answer (endpoint : string) (options : RequestInit) (w : world)
  : fetch_outcome :=
  match getToken w with
  | (Normal token, w') => backend (events w') (request_for token endpoint options)
  | (Throw e, _) => Rejected e
  end.

End Answer.

(** ** Worlds and answers to run the client on *)

Module Samples.
Import SampleHost.

(** A browser whose storage holds [store], and a server-side rendering
    context. *)
Definition browser (store : gmap string string) : world :=
  {| window := true; localStorage := store; events := [] |}.

Definition server_side : world :=
  {| window := false; localStorage := ∅; events := [] |}.

(** The text of a value. *)
Definition text_of (v : value) : string := default "" (write v).

Definition alice : value :=
  VObj [("id", VNum 7); ("username", VStr "alice"); ("email", VStr "alice@example.com")].

Definition token_object : value :=
  VObj [("access_token", VStr "t"); ("token_type", VStr "bearer"); ("user", alice)].

Definition login_succeeds : response :=
  {| status := 200; body_text := text_of token_object |}.

Definition bad_gateway : response :=
  {| status := 502; body_text := "<html>Bad Gateway</html>" |}.

Definition unauthorized : response :=
  {| status := 401;
     body_text := text_of (VObj [("detail", VStr "Incorrect username or password")]) |}.

Definition empty_detail : response :=
  {| status := 400; body_text := text_of (VObj [("detail", VStr "")]) |}.

Definition not_found_bare : response :=
  {| status := 404; body_text := text_of (VObj []) |}.

Definition alice_login : LoginData :=
  {| login_username := "alice"; login_password := "pw" |}.

Definition clip : File :=
  {| file_name := "clip.mp4"; file_bytes := [] |}.

End Samples.

(** * Properties *)

(** Unfolds the monad of the client. *)
Ltac run :=
  unfold result_of, world_after, mbind, M_bind, mret, M_ret, throw, catch,
    typeof_window_is_undefined, localStorage_getItem, localStorage_setItem,
    localStorage_removeItem, record_event in *; simpl in *.

(** ** The client on concrete inputs *)

Example login_form_text :
  URLSearchParams_toString (login_form Samples.alice_login)
  = "username=alice&password=pw&grant_type=password".
Proof. reflexivity. Qed.

Example form_encode_reserved : form_encode "a b&c=d/e~f" = "a+b%26c%3Dd%2Fe%7Ef".
Proof. reflexivity. Qed.

Example well_formed_text :
  well_formed_utf8 "naïve – 日本語 😀" = true
  /\ well_formed_utf8 (String (ascii_of_N 237) (String (ascii_of_N 160)
                         (String (ascii_of_N 128) ""))) = false
  /\ well_formed_utf8 (String (ascii_of_N 192) (String (ascii_of_N 175) "")) = false
  /\ well_formed_utf8 (String (ascii_of_N 195) "") = false.
Proof. repeat split. Qed.

Example ToString_array :
  ToString (VArr [VNum 1; VNull; VStr "a"; VArr [VNum 2; VNum 3]]) = "1,,a,2,3".
Proof. reflexivity. Qed.

Example sample_reads_what_it_writes :
  SampleHost.parse (Samples.text_of Samples.token_object) = Some Samples.token_object.
Proof. reflexivity. Qed.

Example getVideo_runs :
  let host := SampleHost.sample None (SampleHost.always (Responded Samples.login_succeeds)) in
  apiRequest "/videos/42" no_options (Samples.browser {[ "access_token" := "t" ]})
  = (Normal Samples.token_object,
     {| window := true;
        localStorage := {[ "access_token" := "t" ]};
        events :=
          [EvGetItem "access_token";
           EvFetch {| url := "http://localhost:8000/videos/42";
                      init := {| method := None;
                                 headers := Some {[ "Authorization" := "Bearer t" ]};
                                 body := NoBody |} |}] |}).
Proof. reflexivity. Qed.

(** ** The Store *)

Section StoreFacts.
Context {host : Host}.

Lemma getToken_browser (w : world) :
  window w = true ->
  getToken w = (Normal (localStorage w !! "access_token"),
                record_event (EvGetItem "access_token") w).
Proof. destruct w as [win store evs]. simpl. now intros ->. Qed.

Lemma getToken_server (w : world) :
  window w = false -> getToken w = (Normal None, w).
Proof. destruct w as [win store evs]. simpl. now intros ->. Qed.

(** [getToken] never throws, and leaves the storage as it is. *)
Lemma getToken_total (w : world) :
  exists token w',
    getToken w = (Normal token, w')
    /\ window w' = window w
    /\ localStorage w' = localStorage w
    /\ fetches (events w') = fetches (events w)
    /\ storage_writes (events w') = storage_writes (events w).
Proof.
  destruct (window w) eqn:Hw.
  - rewrite (getToken_browser w Hw). eexists _, _. split; [reflexivity|].
    simpl. repeat split; trivial.
    + induction (events w) as [|[] evs IH]; simpl; congruence.
    + induction (events w) as [|[] evs IH]; simpl; congruence.
  - rewrite (getToken_server w Hw). eexists _, _. repeat split; trivial.
Qed.

Lemma getUser_server (w : world) :
  window w = false -> getUser w = (Normal VNull, w).
Proof. destruct w as [win store evs]. simpl. now intros ->. Qed.

Lemma getUser_browser (w : world) :
  window w = true ->
  result_of getUser w =
    match localStorage w !! "user" with
    | None => Normal VNull
    | Some s =>
        if truthy_string s then
          match JSON_parse s with
          | Some v => Normal v
          | None => Normal VNull
          end
        else Normal VNull
    end.
Proof.
  destruct w as [win store evs]. simpl. intros ->.
  unfold getUser, json_parse. run.
  destruct (store !! "user") as [s|]; [|reflexivity].
  destruct (truthy_string s); simpl; [|reflexivity].
  destruct (JSON_parse s); reflexivity.
Qed.

End StoreFacts.

(** C5.  Without a window, [getToken] and [getUser] return [null] and do
    not throw, and [setToken], [setUser], [removeToken] and [removeUser]
    return; none of the six touches the storage: the world, and so its
    history of storage operations, is what it was. *)
Theorem store_without_window `{host : Host} (w : world) :
  window w = false ->
  getToken w = (Normal None, w)
  /\ getUser w = (Normal VNull, w)
  /\ (forall token, setToken token w = (Normal tt, w))
  /\ (forall user, setUser user w = (Normal tt, w))
  /\ removeToken w = (Normal tt, w)
  /\ removeUser w = (Normal tt, w).
Proof.
  intros Hw.
  split; [now apply getToken_server|].
  split; [now apply getUser_server|].
  destruct w as [win store evs]. simpl in Hw. subst win.
  repeat split.
Qed.

Lemma store_without_window_witness :
  let host := SampleHost.sample None (SampleHost.always (Rejected TypeError)) in
  window Samples.server_side = false
  /\ getToken Samples.server_side = (Normal None, Samples.server_side)
  /\ getUser Samples.server_side = (Normal VNull, Samples.server_side)
  /\ setToken "t" Samples.server_side = (Normal tt, Samples.server_side)
  /\ setUser Samples.alice Samples.server_side = (Normal tt, Samples.server_side)
  /\ removeToken Samples.server_side = (Normal tt, Samples.server_side)
  /\ removeUser Samples.server_side = (Normal tt, Samples.server_side).
Proof.
  intros host.
  destruct (@store_without_window host Samples.server_side eq_refl)
    as (Hgt & Hgu & Hst & Hsu & Hrt & Hru).
  repeat split; auto.
Defined.

(** C6.  When the string stored under the user key is not JSON,
    [getUser] returns [null] and does not throw; so it does when nothing
    is stored under that key. *)
Theorem getUser_unreadable `{host : Host} (w : world) :
  (forall s,
      localStorage w !! "user" = Some s -> JSON_parse s = None ->
      result_of getUser w = Normal VNull)
  /\ (localStorage w !! "user" = None -> result_of getUser w = Normal VNull).
Proof.
  destruct (window w) eqn:Hw.
  - rewrite (getUser_browser w Hw). split.
    + intros s -> ->. now destruct (truthy_string s).
    + now intros ->.
  - unfold result_of. rewrite (getUser_server w Hw). now split.
Qed.

Lemma getUser_unreadable_witness :
  let host := SampleHost.sample None (SampleHost.always (Rejected TypeError)) in
  (localStorage (Samples.browser {[ "user" := "{id: 7" ]}) !! "user" = Some "{id: 7"
   /\ JSON_parse "{id: 7" = None
   /\ result_of getUser (Samples.browser {[ "user" := "{id: 7" ]}) = Normal VNull)
  /\ (localStorage (Samples.browser ∅) !! "user" = None
      /\ result_of getUser (Samples.browser ∅) = Normal VNull).
Proof.
  intros host. split.
  - split; [reflexivity|]. split; [reflexivity|].
    apply (proj1 (@getUser_unreadable host (Samples.browser {[ "user" := "{id: 7" ]}))
             "{id: 7"); reflexivity.
  - split; [reflexivity|].
    apply (proj2 (@getUser_unreadable host (Samples.browser ∅))). reflexivity.
Defined.

(** C10.  With a window, [getToken] after [setToken t] returns [t], and
    [getUser] after [setUser u] returns [u] when the JSON text of [u]
    reads back as [u]. *)
Theorem store_round_trip `{host : Host} (w : world) :
  window w = true ->
  (forall t, result_of getToken (world_after (setToken t) w) = Normal (Some t))
  /\ (forall u s,
        JSON_stringify u = Some s -> JSON_parse s = Some u ->
        result_of getUser (world_after (setUser u) w) = Normal u).
Proof.
  destruct w as [win store evs]. simpl. intros ->. split.
  - intros t. unfold setToken, getToken. run.
    now rewrite lookup_insert_eq.
  - intros u s Hs Hp.
    rewrite getUser_browser by reflexivity.
    unfold setUser. run. rewrite Hs. simpl.
    rewrite lookup_insert_eq, Hp.
    destruct s as [|c s]; [|reflexivity].
    rewrite JSON_parse_empty in Hp. discriminate.
Qed.

Lemma store_round_trip_witness :
  let host := SampleHost.sample None (SampleHost.always (Rejected TypeError)) in
  let w := Samples.browser ∅ in
  window w = true
  /\ result_of getToken (world_after (setToken "t") w) = Normal (Some "t")
  /\ JSON_parse (Samples.text_of Samples.alice) = Some Samples.alice
  /\ result_of getUser (world_after (setUser Samples.alice) w) = Normal Samples.alice.
Proof.
  intros host w.
  destruct (@store_round_trip host w eq_refl) as [Htoken Huser].
  split; [reflexivity|]. split; [apply Htoken|]. split; [reflexivity|].
  apply (Huser Samples.alice (Samples.text_of Samples.alice)); reflexivity.
Defined.

(** ** The request executor *)

Section ExecutorFacts.
Context {host : Host}.

Lemma apiRequest_world (endpoint : string) (options : RequestInit) (w : world) :
  world_after (apiRequest endpoint options) w =
  record_event (EvFetch (request_for (token_seen w) endpoint options))
    (world_after getToken w).
Proof.
  unfold apiRequest, token_seen, fetch, response_json, json_parse.
  destruct w as [[] store evs]; run.
  - match goal with |- context [backend ?h ?r] => destruct (backend h r) as [resp|e] end; simpl.
    + destruct (ok resp); simpl.
      * destruct (JSON_parse (body_text resp)); reflexivity.
      * destruct (JSON_parse (body_text resp)) as [[]|]; reflexivity.
    + reflexivity.
  - match goal with |- context [backend ?h ?r] => destruct (backend h r) as [resp|e] end; simpl.
    + destruct (ok resp); simpl.
      * destruct (JSON_parse (body_text resp)); reflexivity.
      * destruct (JSON_parse (body_text resp)) as [[]|]; reflexivity.
    + reflexivity.
Qed.

Lemma apiRequest_rejected endpoint options w e :
  answer endpoint options w = Rejected e ->
  result_of (apiRequest endpoint options) w = Throw e.
Proof.
  unfold apiRequest, answer, fetch.
  destruct w as [[] store evs]; run; intros ->; reflexivity.
Qed.

Lemma apiRequest_success endpoint options w resp :
  answer endpoint options w = Responded resp ->
  ok resp = true ->
  result_of (apiRequest endpoint options) w =
    match JSON_parse (body_text resp) with
    | Some v => Normal v
    | None => Throw SyntaxError
    end.
Proof.
  unfold apiRequest, answer, fetch, response_json, json_parse.
  destruct w as [[] store evs]; run; intros -> ->; simpl;
    destruct (JSON_parse (body_text resp)); reflexivity.
Qed.

Lemma apiRequest_failure endpoint options w resp :
  answer endpoint options w = Responded resp ->
  ok resp = false ->
  result_of (apiRequest endpoint options) w =
    match JSON_parse (body_text resp) with
    | None => Throw (Error "An error occurred")
    | Some VUndefined | Some VNull => Throw TypeError
    | Some (VObj fields) =>
        Throw (Error (ToString (js_or (default VUndefined (own_property fields "detail"))
          (VStr ("HTTP error! status: " ++ number_to_string (status resp))))))
    | Some _ =>
        Throw (Error ("HTTP error! status: " ++ number_to_string (status resp)))
    end.
Proof.
  unfold apiRequest, answer, fetch, response_json, json_parse.
  destruct w as [[] store evs]; run; intros -> ->; simpl;
    destruct (JSON_parse (body_text resp)) as [[]|]; reflexivity.
Qed.
End ExecutorFacts.

Lemma fetches_app (a b : list event) :
  fetches (a ++ b) = (fetches a ++ fetches b)%list.
Proof.
  induction a as [|[] a IH]; simpl; trivial. now rewrite IH.
Qed.

Lemma storage_writes_app (a b : list event) :
  storage_writes (a ++ b) = (storage_writes a ++ storage_writes b)%list.
Proof.
  induction a as [|[] a IH]; simpl; trivial; now rewrite IH.
Qed.

Lemma prefix_refl (s : string) : String.prefix s s = true.
Proof.
  induction s as [|c s IH]; simpl; trivial.
  destruct (ascii_dec c c); [exact IH|congruence].
Qed.

Lemma mentions_suffix (needle before : string) :
  mentions needle (before ++ needle) = true.
Proof.
  induction before as [|c before IH]; simpl.
  - destruct needle; simpl; trivial.
    destruct (ascii_dec a a); [|congruence].
    now rewrite prefix_refl.
  - rewrite IH. apply orb_true_r.
Qed.

Section RequestFacts.
Context {host : Host}.

Lemma token_seen_result (w : world) :
  result_of getToken w = Normal (token_seen w).
Proof.
  unfold token_seen, result_of.
  destruct (getToken_total w) as (token & w' & -> & _). reflexivity.
Qed.

(** [apiRequest] issues one request, after what was issued before. *)
Lemma apiRequest_fetches (endpoint : string) (options : RequestInit) (w : world) :
  fetches (events (world_after (apiRequest endpoint options) w)) =
  (fetches (events w) ++ [request_for (token_seen w) endpoint options])%list.
Proof.
  rewrite apiRequest_world. simpl. rewrite fetches_app. simpl.
  unfold world_after.
  destruct (getToken_total w) as (token & w' & Heq & _ & _ & Hf & _).
  rewrite Heq. simpl. now rewrite Hf.
Qed.

(** [apiRequest] reads the storage and does not write it. *)
Lemma apiRequest_keeps_store (endpoint : string) (options : RequestInit) (w : world) :
  window (world_after (apiRequest endpoint options) w) = window w
  /\ localStorage (world_after (apiRequest endpoint options) w) = localStorage w
  /\ storage_writes (events (world_after (apiRequest endpoint options) w)) =
     storage_writes (events w).
Proof.
  rewrite apiRequest_world. simpl. rewrite storage_writes_app. simpl.
  unfold world_after.
  destruct (getToken_total w) as (token & w' & Heq & Hwin & Hst & _ & Hwr).
  rewrite Heq. simpl. now rewrite Hwin, Hst, Hwr, app_nil_r.
Qed.

Lemma header_with_token (t endpoint : string) (options : RequestInit) :
  t <> "" ->
  header (request_for (Some t) endpoint options) "Authorization" =
  Some ("Bearer " ++ t).
Proof.
  intros Ht. unfold header, request_for, request_headers. simpl.
  destruct t as [|c t]; [congruence|]. simpl. apply lookup_insert_eq.
Qed.

Lemma header_other (token : option string) (endpoint name : string)
    (options : RequestInit) :
  name <> "Authorization" ->
  header (request_for token endpoint options) name = spread (headers options) !! name.
Proof.
  intros Hn. unfold header, request_for, request_headers. simpl.
  destruct token as [[|c t]|]; simpl; trivial.
  apply lookup_insert_ne. congruence.
Qed.

Lemma header_without_token (endpoint name : string) (options : RequestInit) :
  header (request_for None endpoint options) name = spread (headers options) !! name.
Proof. reflexivity. Qed.

End RequestFacts.

(** C1, amended.  On a response that is not a success: when the body is a
    JSON object whose [detail] is a string [X] that is not empty, the
    error thrown has the message [X]; when the body is any JSON value
    other than [null] that has no [detail], or whose [detail] is falsy
    (the empty string, [null], [false], zero), the message is
    [HTTP error! status: ] followed by the status, which it thus mentions;
    when the body is not JSON, the message is [An error occurred].
    ([JSON.parse] gives no [undefined].) *)
Theorem apiRequest_error_message `{host : Host}
    (endpoint : string) (options : RequestInit) (w : world) (resp : response) :
  answer endpoint options w = Responded resp ->
  ok resp = false ->
  (forall fields X,
      JSON_parse (body_text resp) = Some (VObj fields) ->
      own_property fields "detail" = Some (VStr X) ->
      X <> "" ->
      result_of (apiRequest endpoint options) w = Throw (Error X))
  /\ (forall v,
        JSON_parse (body_text resp) = Some v ->
        v <> VNull ->
        v <> VUndefined ->
        (forall fields d,
            v = VObj fields -> own_property fields "detail" = Some d ->
            truthy d = false) ->
        result_of (apiRequest endpoint options) w =
          Throw (Error ("HTTP error! status: " ++ number_to_string (status resp)))
        /\ mentions (number_to_string (status resp))
             ("HTTP error! status: " ++ number_to_string (status resp)) = true)
  /\ (JSON_parse (body_text resp) = None ->
      result_of (apiRequest endpoint options) w = Throw (Error "An error occurred")).
Proof.
  intros Hanswer Hok.
  pose proof (apiRequest_failure endpoint options w resp Hanswer Hok) as Hres.
  split; [|split].
  - intros fields X Hbody Hdetail HX. rewrite Hres, Hbody, Hdetail. simpl.
    unfold js_or. simpl. destruct X; [congruence|reflexivity].
  - intros v Hbody Hnull Hundef Hfalsy. split; [|apply mentions_suffix].
    rewrite Hres, Hbody.
    destruct v as [| |b|n|s|items|fields]; try congruence; try reflexivity.
    destruct (own_property fields "detail") as [d|] eqn:Hdetail; [|reflexivity].
    pose proof (Hfalsy fields d eq_refl Hdetail) as Hd.
    change (default VUndefined (Some d)) with d.
    unfold js_or. now rewrite Hd.
  - intros Hbody. now rewrite Hres, Hbody.
Qed.

Lemma apiRequest_error_message_witness :
  (let host := SampleHost.sample None (SampleHost.always (Responded Samples.unauthorized)) in
   let w := Samples.browser ∅ in
   answer "/auth/login" (login_options Samples.alice_login) w
     = Responded Samples.unauthorized
   /\ ok Samples.unauthorized = false
   /\ result_of (apiRequest "/auth/login" (login_options Samples.alice_login)) w
      = Throw (Error "Incorrect username or password"))
  /\
  (let broken := {| status := 500; body_text := "[1]" |} in
   let host := SampleHost.sample None (SampleHost.always (Responded broken)) in
   let w := Samples.browser ∅ in
   answer "/feed" no_options w = Responded broken
   /\ ok broken = false
   /\ JSON_parse (body_text broken) = Some (VArr [VNum 1])
   /\ result_of (apiRequest "/feed" no_options) w
      = Throw (Error "HTTP error! status: 500")).
Proof.
  split.
  - intros host w.
    split; [reflexivity|]. split; [reflexivity|].
    destruct (@apiRequest_error_message host "/auth/login"
                (login_options Samples.alice_login) w Samples.unauthorized
                eq_refl eq_refl) as [Hdetail _].
    apply (Hdetail [("detail", VStr "Incorrect username or password")]);
      [reflexivity | reflexivity | discriminate].
  - intros broken host w.
    split; [reflexivity|]. split; [reflexivity|]. split; [reflexivity|].
    destruct (@apiRequest_error_message host "/feed" no_options w broken
                eq_refl eq_refl) as (_ & Hfallback & _).
    apply (Hfallback (VArr [VNum 1])); [reflexivity | discriminate | discriminate |].
    intros fields d Hobject. discriminate Hobject.
Defined.

(** C1 as stated fails.  A 502 whose body is not JSON gives the message
    [An error occurred], which does not mention 502; a 400 whose body has
    the empty string as [detail] gives a message that is not that string;
    and a 400 whose body has [true] as [detail], which is no string, gives
    the message [true], which does not mention 400. *)
Lemma apiRequest_error_message_counterexample :
  (let host := SampleHost.sample None (SampleHost.always (Responded Samples.bad_gateway)) in
   ok Samples.bad_gateway = false
   /\ JSON_parse (body_text Samples.bad_gateway) = None
   /\ result_of (apiRequest "/feed" no_options) (Samples.browser ∅)
      = Throw (Error "An error occurred")
   /\ mentions (number_to_string (status Samples.bad_gateway)) "An error occurred" = false)
  /\
  (let host := SampleHost.sample None (SampleHost.always (Responded Samples.empty_detail)) in
   ok Samples.empty_detail = false
   /\ JSON_parse (body_text Samples.empty_detail) = Some (VObj [("detail", VStr "")])
   /\ result_of (apiRequest "/feed" no_options) (Samples.browser ∅)
      = Throw (Error "HTTP error! status: 400")
   /\ Error "HTTP error! status: 400" <> Error "")
  /\
  (let flagged :=
     {| status := 400; body_text := Samples.text_of (VObj [("detail", VBool true)]) |} in
   let host := SampleHost.sample None (SampleHost.always (Responded flagged)) in
   ok flagged = false
   /\ JSON_parse (body_text flagged) = Some (VObj [("detail", VBool true)])
   /\ result_of (apiRequest "/feed" no_options) (Samples.browser ∅)
      = Throw (Error "true")
   /\ mentions (number_to_string (status flagged)) "true" = false).
Proof.
  split; [|split]; cbv zeta; repeat split; try reflexivity. discriminate.
Qed.

(** ** The endpoint functions *)

Section EndpointFacts.
Context {host : Host}.

(** Storing a token or a user issues no request. *)
Lemma setToken_fetches (token : string) (w : world) :
  fetches (events (world_after (setToken token) w)) = fetches (events w).
Proof.
  destruct w as [[] store evs]; unfold setToken; run; trivial.
  rewrite fetches_app. simpl. apply app_nil_r.
Qed.

Lemma setUser_fetches (user : value) (w : world) :
  fetches (events (world_after (setUser user) w)) = fetches (events w).
Proof.
  destruct w as [[] store evs]; unfold setUser; run; trivial.
  rewrite fetches_app. simpl. apply app_nil_r.
Qed.

(** [login] issues the request of its [apiRequest] and no other. *)
Lemma login_fetches (data : LoginData) (w : world) :
  fetches (events (world_after (login data) w)) =
  fetches (events (world_after (apiRequest "/auth/login" (login_options data)) w)).
Proof.
  unfold login, world_after, mbind, M_bind.
  destruct (apiRequest "/auth/login" (login_options data) w) as [[token|e] w1];
    simpl; trivial.
  destruct token; simpl; trivial;
    destruct w1 as [[] store evs]; unfold setToken, setUser; run;
    rewrite ?fetches_app; simpl; rewrite ?app_nil_r; reflexivity.
Qed.

(** Every endpoint function issues one request, the one [apiRequest]
    builds from some endpoint and some options that set no
    [Authorization] header. *)
Lemma run_call_fetches (c : endpoint_call) (w : world) :
  exists endpoint options,
    spread (headers options) !! "Authorization" = None
    /\ fetches (events (world_after (run_call c) w)) =
       (fetches (events w) ++ [request_for (token_seen w) endpoint options])%list.
Proof.
  destruct c; simpl;
    try (eexists _, _; split; [|apply apiRequest_fetches]; reflexivity).
  eexists _, _. split; [|rewrite login_fetches; apply apiRequest_fetches].
  reflexivity.
Qed.

End EndpointFacts.

(** C2, amended.  Every endpoint function issues one request.  While
    [getToken] returns a token [t] that is not the empty string, the
    request carries the header [Authorization: Bearer t]; once [getToken]
    returns [null], the request carries no [Authorization] header. *)
Theorem bearer_token_attached `{host : Host} (c : endpoint_call) (w : world) :
  exists r,
    fetches (events (world_after (run_call c) w)) = (fetches (events w) ++ [r])%list
    /\ (forall t,
          result_of getToken w = Normal (Some t) -> t <> "" ->
          header r "Authorization" = Some ("Bearer " ++ t))
    /\ (result_of getToken w = Normal None -> header r "Authorization" = None).
Proof.
  destruct (run_call_fetches c w) as (endpoint & options & Hnone & Hfetch).
  exists (request_for (token_seen w) endpoint options).
  split; [exact Hfetch|]. rewrite token_seen_result. split.
  - intros t [= ->] Ht. now apply header_with_token.
  - intros [= ->]. now rewrite header_without_token.
Qed.

Lemma bearer_token_attached_witness :
  let host := SampleHost.sample None (SampleHost.always (Responded Samples.not_found_bare)) in
  let w := Samples.browser {[ "access_token" := "t" ]} in
  exists r,
    fetches (events (world_after (run_call (CallGetVideo "42")) w)) = [r]
    /\ result_of getToken w = Normal (Some "t")
    /\ header r "Authorization" = Some "Bearer t".
Proof.
  intros host w.
  destruct (@bearer_token_attached host (CallGetVideo "42") w) as (r & Hfetch & Hsome & _).
  exists r. split; [exact Hfetch|]. split; [reflexivity|].
  apply (Hsome "t"); [reflexivity | discriminate].
Defined.

(** C2 as stated fails.  After [setToken ""] the Store holds the empty
    token, [getToken] returns it, and the request of [getFeed] carries no
    [Authorization] header. *)
Lemma bearer_token_attached_counterexample :
  let host := SampleHost.sample None (SampleHost.always (Responded Samples.not_found_bare)) in
  let w := world_after (setToken "") (Samples.browser ∅) in
  result_of getToken w = Normal (Some "")
  /\ exists r,
       fetches (events (world_after (run_call CallGetFeed) w)) = [r]
       /\ header r "Authorization" = None
       /\ header r "Authorization" <> Some ("Bearer " ++ "").
Proof.
  cbv zeta. split; [reflexivity|].
  eexists. split; [reflexivity|]. split; [reflexivity|discriminate].
Qed.

(** C9, amended.  While [getToken] returns a token [t] that is not the
    empty string, the request [apiRequest] issues has the header
    [Authorization: Bearer t] whatever headers the caller gave, and every
    other header is the caller's. *)
Theorem authorization_overrides_caller `{host : Host}
    (endpoint : string) (options : RequestInit) (w : world) (t : string) :
  result_of getToken w = Normal (Some t) ->
  t <> "" ->
  exists r,
    fetches (events (world_after (apiRequest endpoint options) w)) =
      (fetches (events w) ++ [r])%list
    /\ header r "Authorization" = Some ("Bearer " ++ t)
    /\ (forall name, name <> "Authorization" ->
          header r name = spread (headers options) !! name).
Proof.
  intros Htoken Ht. rewrite token_seen_result in Htoken. injection Htoken as Htoken.
  exists (request_for (token_seen w) endpoint options).
  split; [apply apiRequest_fetches|]. rewrite Htoken. split.
  - now apply header_with_token.
  - intros name Hname. now apply header_other.
Qed.

Lemma authorization_overrides_caller_witness :
  let host := SampleHost.sample None (SampleHost.always (Responded Samples.not_found_bare)) in
  let w := Samples.browser {[ "access_token" := "t" ]} in
  let options :=
    {| method := Some "GET";
       headers := Some {[ "Authorization" := "Basic abc" ]};
       body := NoBody |} in
  result_of getToken w = Normal (Some "t")
  /\ exists r,
       fetches (events (world_after (apiRequest "/feed" options) w)) = [r]
       /\ header r "Authorization" = Some "Bearer t".
Proof.
  intros host w options. split; [reflexivity|].
  destruct (@authorization_overrides_caller host "/feed" options w "t" eq_refl)
    as (r & Hfetch & Hauth & _); [discriminate|].
  exists r. split; [exact Hfetch | exact Hauth].
Defined.

(** C9 as stated fails.  With the empty token in the Store, the request
    keeps the [Authorization] header of the caller. *)
Lemma authorization_overrides_caller_counterexample :
  let host := SampleHost.sample None (SampleHost.always (Responded Samples.not_found_bare)) in
  let w := Samples.browser {[ "access_token" := "" ]} in
  let options :=
    {| method := Some "GET";
       headers := Some {[ "Authorization" := "Basic abc" ]};
       body := NoBody |} in
  result_of getToken w = Normal (Some "")
  /\ exists r,
       fetches (events (world_after (apiRequest "/feed" options) w)) = [r]
       /\ header r "Authorization" = Some "Basic abc"
       /\ header r "Authorization" <> Some ("Bearer " ++ "").
Proof.
  cbv zeta. split; [reflexivity|].
  eexists. split; [reflexivity|]. split; [reflexivity|discriminate].
Qed.

(** C7, amended.  [apiRequest] issues its request against the base URL
    followed by the endpoint; the base URL is the environment variable
    when that is set and not empty, and [http://localhost:8000] when it is
    unset or empty. *)
Theorem request_url `{host : Host}
    (endpoint : string) (options : RequestInit) (w : world) :
  exists r,
    fetches (events (world_after (apiRequest endpoint options) w)) =
      (fetches (events w) ++ [r])%list
    /\ (forall base, NEXT_PUBLIC_API_URL = Some base -> base <> "" ->
          url r = base ++ endpoint)
    /\ (NEXT_PUBLIC_API_URL = None \/ NEXT_PUBLIC_API_URL = Some "" ->
          url r = "http://localhost:8000" ++ endpoint).
Proof.
  exists (request_for (token_seen w) endpoint options).
  split; [apply apiRequest_fetches|]. unfold request_for, API_BASE_URL. simpl.
  split.
  - intros base -> Hbase. destruct base; [congruence|reflexivity].
  - intros [-> | ->]; reflexivity.
Qed.

Lemma request_url_witness :
  let host :=
    SampleHost.sample (Some "https://api.example.com")
      (SampleHost.always (Responded Samples.not_found_bare)) in
  exists r,
    fetches (events (world_after (apiRequest "/feed" no_options) (Samples.browser ∅))) = [r]
    /\ NEXT_PUBLIC_API_URL = Some "https://api.example.com"
    /\ url r = "https://api.example.com/feed".
Proof.
  intros host.
  destruct (@request_url host "/feed" no_options (Samples.browser ∅))
    as (r & Hfetch & Hset & _).
  exists r. split; [exact Hfetch|]. split; [reflexivity|].
  apply (Hset "https://api.example.com"); [reflexivity | discriminate].
Defined.

(** C7 as stated fails.  With the environment variable set to the empty
    string, the request goes to the local default address, not to the
    bare path. *)
Lemma request_url_counterexample :
  let host :=
    SampleHost.sample (Some "") (SampleHost.always (Responded Samples.not_found_bare)) in
  NEXT_PUBLIC_API_URL = Some ""
  /\ exists r,
       fetches (events (world_after (apiRequest "/feed" no_options) (Samples.browser ∅))) = [r]
       /\ url r = "http://localhost:8000/feed"
       /\ url r <> "" ++ "/feed".
Proof.
  cbv zeta. split; [reflexivity|].
  eexists. split; [reflexivity|]. split; [reflexivity|discriminate].
Qed.

(** C4, amended.  The body [uploadVideo] sends is a form with one
    [visibility] field, equal to the given visibility when one is given
    and not empty and to [public] when none is given or the empty one, and
    with a [recipe] field, equal to the given recipe, when one is given
    and not empty, and no [recipe] field when none is given or the empty
    one. *)
Theorem upload_form_fields `{host : Host} (data : UploadVideoData) (w : world) :
  exists r,
    fetches (events (world_after (uploadVideo data) w)) = (fetches (events w) ++ [r])%list
    /\ body (init r) = FormDataBody (upload_form data)
    /\ (forall v, visibility data = Some v -> v <> "" ->
          getAll (upload_form data) "visibility" = [FormText v])
    /\ (visibility data = None \/ visibility data = Some "" ->
          getAll (upload_form data) "visibility" = [FormText "public"])
    /\ (forall text, recipe data = Some text -> text <> "" ->
          getAll (upload_form data) "recipe" = [FormText text])
    /\ (recipe data = None \/ recipe data = Some "" ->
          getAll (upload_form data) "recipe" = []).
Proof.
  eexists. split; [apply apiRequest_fetches|]. split; [reflexivity|].
  destruct data as [ti fi re vi]. unfold upload_form. simpl.
  repeat split.
  - intros v -> Hv. destruct v; [congruence|]. destruct re as [[|c re]|]; reflexivity.
  - intros [-> | ->]; destruct re as [[|c re]|]; reflexivity.
  - intros text -> Htext. destruct text; [congruence|reflexivity].
  - intros [-> | ->]; reflexivity.
Qed.

Lemma upload_form_fields_witness :
  let host := SampleHost.sample None (SampleHost.always (Responded Samples.not_found_bare)) in
  let data :=
    {| title := "Soup"; file := Samples.clip;
       recipe := Some "Boil."; visibility := Some "private" |} in
  getAll (upload_form data) "visibility" = [FormText "private"]
  /\ getAll (upload_form data) "recipe" = [FormText "Boil."].
Proof.
  intros host data.
  destruct (@upload_form_fields host data (Samples.browser ∅))
    as (r & _ & _ & Hvis & _ & Hrecipe & _).
  split.
  - apply (Hvis "private"); [reflexivity | discriminate].
  - apply (Hrecipe "Boil."); [reflexivity | discriminate].
Defined.

(** C4 as stated fails.  A recipe that is the empty string is given and
    the form has no [recipe] field; a visibility that is the empty string
    is given and the [visibility] field is [public]. *)
Lemma upload_form_fields_counterexample :
  (let data :=
     {| title := "Soup"; file := Samples.clip;
        recipe := Some ""; visibility := None |} in
   recipe data = Some "" /\ getAll (upload_form data) "recipe" = [])
  /\
  (let data :=
     {| title := "Soup"; file := Samples.clip;
        recipe := None; visibility := Some "" |} in
   visibility data = Some ""
   /\ getAll (upload_form data) "visibility" = [FormText "public"]
   /\ getAll (upload_form data) "visibility" <> [FormText ""]).
Proof.
  cbv zeta. repeat split. discriminate.
Qed.

(** C8.  When the request of [login] fails, [login] fails with the same
    error, the storage holds what it held, and nothing was written to
    it. *)
Theorem login_failure_keeps_store `{host : Host}
    (data : LoginData) (w : world) (e : thrown) :
  result_of (apiRequest "/auth/login" (login_options data)) w = Throw e ->
  result_of (login data) w = Throw e
  /\ localStorage (world_after (login data) w) = localStorage w
  /\ storage_writes (events (world_after (login data) w)) = storage_writes (events w).
Proof.
  intros Hfail.
  destruct (apiRequest_keeps_store "/auth/login" (login_options data) w)
    as (_ & Hstore & Hwrites).
  unfold login, result_of, world_after, mbind, M_bind in *.
  destruct (apiRequest "/auth/login" (login_options data) w) as [[token|e'] w1];
    simpl in *; [discriminate|].
  injection Hfail as ->. auto.
Qed.

Lemma login_failure_keeps_store_witness :
  let host := SampleHost.sample None (SampleHost.always (Responded Samples.unauthorized)) in
  let w := Samples.browser {[ "access_token" := "old" ]} in
  result_of (login Samples.alice_login) w = Throw (Error "Incorrect username or password")
  /\ localStorage (world_after (login Samples.alice_login) w) = localStorage w
  /\ storage_writes (events (world_after (login Samples.alice_login) w)) = [].
Proof.
  intros host w.
  apply (@login_failure_keeps_store host Samples.alice_login w
           (Error "Incorrect username or password")).
  reflexivity.
Defined.

(** C3, amended.  With a window, when the backend answers the request of
    [login] with a success whose body is a JSON object with
    [access_token] the string [t] and [user] the value [u], [login]
    returns that object, and afterwards [getToken] returns [t], the
    storage holds the JSON text of [u] under the user key, and [getUser]
    returns [u] when that text reads back as [u]. *)
Theorem login_stores_session `{host : Host}
    (data : LoginData) (w : world) (resp : response)
    (fields : list (string * value)) (t : string) (u : value) :
  window w = true ->
  answer "/auth/login" (login_options data) w = Responded resp ->
  ok resp = true ->
  JSON_parse (body_text resp) = Some (VObj fields) ->
  own_property fields "access_token" = Some (VStr t) ->
  own_property fields "user" = Some u ->
  result_of (login data) w = Normal (VObj fields)
  /\ result_of getToken (world_after (login data) w) = Normal (Some t)
  /\ localStorage (world_after (login data) w) !! "user"
     = Some (default (ToString VUndefined) (JSON_stringify u))
  /\ (forall s, JSON_stringify u = Some s -> JSON_parse s = Some u ->
        result_of getUser (world_after (login data) w) = Normal u).
Proof.
  intros Hw Hanswer Hok Hbody Htoken Huser.
  pose proof (apiRequest_success _ _ _ _ Hanswer Hok) as Hres.
  rewrite Hbody in Hres.
  destruct (apiRequest_keeps_store "/auth/login" (login_options data) w)
    as (Hwin & _ & _).
  rewrite Hw in Hwin.
  assert (Hlogin : login data w =
            (Normal (VObj fields),
             world_after (setUser u)
               (world_after (setToken t)
                  (world_after (apiRequest "/auth/login" (login_options data)) w)))).
  { unfold login, result_of, world_after, mbind, M_bind in *.
    destruct (apiRequest "/auth/login" (login_options data) w) as [r w1].
    simpl in *. subst r. simpl. rewrite Htoken, Huser. simpl.
    destruct w1 as [win store evs]. simpl in Hwin. subst win. reflexivity. }
  unfold result_of at 1. unfold world_after at 1 2 3. rewrite Hlogin. simpl.
  set (w1 := world_after (apiRequest "/auth/login" (login_options data)) w) in *.
  clearbody w1. destruct w1 as [win store evs]. simpl in Hwin. subst win.
  split; [reflexivity|]. split; [|split].
  - unfold getToken, setToken, setUser. run.
    rewrite lookup_insert_ne by discriminate. now rewrite lookup_insert_eq.
  - unfold setToken, setUser. run. now rewrite lookup_insert_eq.
  - intros s Hs Hparse. rewrite getUser_browser by reflexivity.
    unfold setToken, setUser. run. rewrite Hs. simpl.
    rewrite lookup_insert_eq, Hparse.
    destruct s; [|reflexivity]. rewrite JSON_parse_empty in Hparse. discriminate.
Qed.

Lemma login_stores_session_witness :
  let host := SampleHost.sample None (SampleHost.always (Responded Samples.login_succeeds)) in
  let w := Samples.browser ∅ in
  result_of (login Samples.alice_login) w = Normal Samples.token_object
  /\ result_of getToken (world_after (login Samples.alice_login) w) = Normal (Some "t")
  /\ result_of getUser (world_after (login Samples.alice_login) w) = Normal Samples.alice.
Proof.
  intros host w.
  destruct (@login_stores_session host Samples.alice_login w Samples.login_succeeds
              [("access_token", VStr "t"); ("token_type", VStr "bearer");
               ("user", Samples.alice)] "t" Samples.alice
              eq_refl eq_refl eq_refl eq_refl eq_refl eq_refl)
    as (Hret & Htoken & _ & Huser).
  split; [exact Hret|]. split; [exact Htoken|].
  apply (Huser (Samples.text_of Samples.alice)); reflexivity.
Defined.

(** C3 as stated fails.  Without a window, [login] returns the token
    object of the backend and the Store holds neither the token nor the
    user. *)
Lemma login_stores_session_counterexample :
  let host := SampleHost.sample None (SampleHost.always (Responded Samples.login_succeeds)) in
  let w := Samples.server_side in
  JSON_parse (body_text Samples.login_succeeds) = Some Samples.token_object
  /\ result_of (login Samples.alice_login) w = Normal Samples.token_object
  /\ result_of getToken (world_after (login Samples.alice_login) w) = Normal None
  /\ result_of getUser (world_after (login Samples.alice_login) w) = Normal VNull.
Proof.
  cbv zeta. repeat split.
Qed.

(** ** A session *)

Section SessionFacts.
Context {host : Host}.

(** What [getToken] returns is decided by the window and the storage. *)
Lemma getToken_result (w : world) :
  result_of getToken w =
  Normal (if window w then localStorage w !! "access_token" else None).
Proof. now destruct w as [[] store evs]. Qed.

(** Once the token is removed, [getToken] returns [null]. *)
Lemma getToken_after_removeToken (w : world) :
  result_of getToken (world_after removeToken w) = Normal None.
Proof.
  destruct w as [[] store evs]; unfold removeToken, getToken; run; trivial.
  now rewrite lookup_delete_eq.
Qed.

(** Every endpoint function but [login] leaves the storage as it is. *)
Lemma run_call_keeps_store (c : endpoint_call) (w : world) :
  is_login c = false ->
  window (world_after (run_call c) w) = window w
  /\ localStorage (world_after (run_call c) w) = localStorage w.
Proof.
  intros Hc.
  destruct c; try discriminate; simpl;
    unfold register, getCurrentUser, listVideos, getVideo, getVideoStream,
      uploadVideo, getUserProfile, getUserVideos, followUser, unfollowUser,
      getFollowers, getFollowing, getFeed;
    match goal with
    | |- context [apiRequest ?e ?o] =>
        destruct (apiRequest_keeps_store e o w) as (Hwin & Hstore & _)
    end; auto.
Qed.

(** A token that is stored and not empty goes with every request of a
    session in which nobody logs in. *)
Lemma token_attached_throughout (cs : list endpoint_call) (w : world) (t : string) :
  window w = true ->
  localStorage w !! "access_token" = Some t ->
  t <> "" ->
  forallb (fun c => negb (is_login c)) cs = true ->
  exists rs,
    fetches (events (run_calls cs w)) = (fetches (events w) ++ rs)%list
    /\ length rs = length cs
    /\ Forall (fun r => header r "Authorization" = Some ("Bearer " ++ t)) rs.
Proof.
  intros Hwin Htoken Ht. revert w Hwin Htoken.
  induction cs as [|c cs IH]; intros w Hwin Htoken Hcs; simpl in *.
  - exists []. rewrite app_nil_r. auto.
  - apply andb_prop in Hcs as [Hc Hcs]. apply negb_true_iff in Hc.
    destruct (run_call_keeps_store c w Hc) as [Hwin' Hstore'].
    destruct (run_call_fetches c w) as (endpoint & options & _ & Hfetch).
    destruct (IH (world_after (run_call c) w)) as (rs & Hrs & Hlen & Hall); trivial.
    + now rewrite Hwin'.
    + now rewrite Hstore'.
    + exists (request_for (token_seen w) endpoint options :: rs).
      rewrite Hrs, Hfetch, <- app_assoc. simpl. repeat split; [now rewrite Hlen|].
      constructor; [|exact Hall].
      assert (Hseen : token_seen w = Some t).
      { pose proof (token_seen_result w) as H. rewrite getToken_result, Hwin, Htoken in H.
        now injection H. }
      rewrite Hseen. now apply header_with_token.
Qed.

End SessionFacts.

(** * Further properties of the client *)

(** ** The Store, operation by operation *)

Section StoreAlgebra.
Context {host : Host}.

(** What [getUser] returns is decided by the window and by what is stored
    under the user key. *)
Lemma getUser_result (w : world) :
  result_of getUser w =
  if window w then
    match localStorage w !! "user" with
    | None => Normal VNull
    | Some s =>
        if truthy_string s then
          match JSON_parse s with
          | Some v => Normal v
          | None => Normal VNull
          end
        else Normal VNull
    end
  else Normal VNull.
Proof.
  destruct (window w) eqn:Hw.
  - now apply getUser_browser.
  - unfold result_of. now rewrite (getUser_server w Hw).
Qed.

Lemma getUser_world (w : world) :
  window (world_after getUser w) = window w
  /\ localStorage (world_after getUser w) = localStorage w
  /\ storage_writes (events (world_after getUser w)) = storage_writes (events w).
Proof.
  destruct w as [[] store evs]; unfold getUser, json_parse; run; [|auto].
  destruct (store !! "user") as [s|]; simpl.
  - destruct (truthy_string s); simpl;
      [destruct (JSON_parse s); simpl|];
      rewrite storage_writes_app; simpl; rewrite app_nil_r; auto.
  - rewrite storage_writes_app; simpl; rewrite app_nil_r; auto.
Qed.

End StoreAlgebra.

(** X1.  [getToken] and [getUser] write nothing: after either, the
    storage and the history of writes are what they were, whatever is
    stored and with or without a window. *)
Theorem getters_read_only `{host : Host} (w : world) :
  localStorage (world_after getToken w) = localStorage w
  /\ storage_writes (events (world_after getToken w)) = storage_writes (events w)
  /\ localStorage (world_after getUser w) = localStorage w
  /\ storage_writes (events (world_after getUser w)) = storage_writes (events w).
Proof.
  destruct (getToken_total w) as (token & w' & Heq & _ & Hstore & _ & Hwrites).
  destruct (getUser_world w) as (_ & Hstore' & Hwrites').
  unfold world_after in *. rewrite Heq. simpl. auto.
Qed.

(** X2.  After [removeToken], [getToken] returns [null], and after
    [removeUser], [getUser] returns [null], whatever was stored and with
    or without a window. *)
Theorem remove_clears `{host : Host} (w : world) :
  result_of getToken (world_after removeToken w) = Normal None
  /\ result_of getUser (world_after removeUser w) = Normal VNull.
Proof.
  split.
  - apply getToken_after_removeToken.
  - rewrite getUser_result.
    destruct w as [[] store evs]; unfold removeUser; run; trivial.
    now rewrite lookup_delete_eq.
Qed.

(** X3.  The token and the user are stored apart: [setToken] and
    [removeToken] do not change what [getUser] returns, and [setUser] and
    [removeUser] do not change what [getToken] returns. *)
Theorem store_keys_independent `{host : Host} (w : world) (t : string) (u : value) :
  result_of getUser (world_after (setToken t) w) = result_of getUser w
  /\ result_of getUser (world_after removeToken w) = result_of getUser w
  /\ result_of getToken (world_after (setUser u) w) = result_of getToken w
  /\ result_of getToken (world_after removeUser w) = result_of getToken w.
Proof.
  rewrite !getUser_result, !getToken_result.
  destruct w as [[] store evs];
    unfold setToken, removeToken, setUser, removeUser; run; [|auto].
  rewrite !lookup_insert_ne, !lookup_delete_ne by discriminate. auto.
Qed.

(** X4.  The last write wins: storing a token, or a user, over an earlier
    one leaves the storage as if only the later one had been stored, so
    [getToken] and [getUser] return what they return after the later
    write alone. *)
Theorem store_last_write_wins `{host : Host}
    (w : world) (t1 t2 : string) (u1 u2 : value) :
  localStorage (world_after (setToken t2) (world_after (setToken t1) w))
    = localStorage (world_after (setToken t2) w)
  /\ result_of getToken (world_after (setToken t2) (world_after (setToken t1) w))
     = result_of getToken (world_after (setToken t2) w)
  /\ localStorage (world_after (setUser u2) (world_after (setUser u1) w))
     = localStorage (world_after (setUser u2) w)
  /\ result_of getUser (world_after (setUser u2) (world_after (setUser u1) w))
     = result_of getUser (world_after (setUser u2) w).
Proof.
  rewrite !getUser_result, !getToken_result.
  destruct w as [[] store evs]; unfold setToken, setUser; run; [|auto].
  rewrite !insert_insert_eq. auto.
Qed.

(** ** The request executor, case by case *)

(** X5.  Without a window, [apiRequest] touches no storage: the one thing
    it does is to issue its request, whose method, headers and body are
    those of the caller. *)
Theorem apiRequest_without_window `{host : Host}
    (endpoint : string) (options : RequestInit) (w : world) :
  window w = false ->
  events (world_after (apiRequest endpoint options) w) =
    (events w ++
     [EvFetch {| url := API_BASE_URL ++ endpoint;
                 init := {| method := method options;
                            headers := Some (spread (headers options));
                            body := body options |} |}])%list
  /\ localStorage (world_after (apiRequest endpoint options) w) = localStorage w.
Proof.
  intros Hw. rewrite apiRequest_world.
  unfold token_seen, world_after. rewrite (getToken_server w Hw). auto.
Qed.

Lemma apiRequest_without_window_witness :
  let host := SampleHost.sample None (SampleHost.always (Responded Samples.not_found_bare)) in
  window Samples.server_side = false
  /\ events (world_after (apiRequest "/feed" no_options) Samples.server_side) =
       [EvFetch {| url := "http://localhost:8000/feed";
                   init := {| method := None; headers := Some ∅; body := NoBody |} |}].
Proof.
  intros host. split; [reflexivity|].
  apply (@apiRequest_without_window host "/feed" no_options Samples.server_side eq_refl).
Defined.

(** X6.  With a window, [apiRequest] reads the token and then issues its
    request, and does nothing else: it never writes to the storage,
    however the request ends. *)
Theorem apiRequest_with_window `{host : Host}
    (endpoint : string) (options : RequestInit) (w : world) :
  window w = true ->
  exists r,
    events (world_after (apiRequest endpoint options) w) =
      (events w ++ [EvGetItem "access_token"; EvFetch r])%list
    /\ url r = API_BASE_URL ++ endpoint
    /\ method (init r) = method options
    /\ body (init r) = body options
    /\ localStorage (world_after (apiRequest endpoint options) w) = localStorage w.
Proof.
  intros Hw. eexists. rewrite apiRequest_world.
  unfold token_seen, world_after. rewrite (getToken_browser w Hw). simpl.
  rewrite <- app_assoc. simpl. repeat split.
Qed.

Lemma apiRequest_with_window_witness :
  let host := SampleHost.sample None (SampleHost.always (Responded Samples.bad_gateway)) in
  let w := Samples.browser {[ "access_token" := "t" ]} in
  window w = true
  /\ exists r,
       events (world_after (apiRequest "/feed" no_options) w) =
         [EvGetItem "access_token"; EvFetch r]
       /\ url r = "http://localhost:8000/feed"
       /\ localStorage (world_after (apiRequest "/feed" no_options) w) = localStorage w.
Proof.
  intros host w. split; [reflexivity|].
  destruct (@apiRequest_with_window host "/feed" no_options w eq_refl)
    as (r & Hevents & Hurl & _ & _ & Hstore).
  exists r. auto.
Defined.

(** X7.  When [fetch] rejects, [apiRequest] rejects with the same reason,
    and the storage is what it was. *)
Theorem apiRequest_network_failure `{host : Host}
    (endpoint : string) (options : RequestInit) (w : world) (e : thrown) :
  answer endpoint options w = Rejected e ->
  result_of (apiRequest endpoint options) w = Throw e
  /\ localStorage (world_after (apiRequest endpoint options) w) = localStorage w
  /\ storage_writes (events (world_after (apiRequest endpoint options) w))
     = storage_writes (events w).
Proof.
  intros Hanswer. split; [now apply apiRequest_rejected|].
  now destruct (apiRequest_keeps_store endpoint options w) as (_ & ? & ?).
Qed.

Lemma apiRequest_network_failure_witness :
  let host :=
    SampleHost.sample None (SampleHost.always (Rejected (FetchFailure "Failed to fetch"))) in
  let w := Samples.browser {[ "access_token" := "t" ]} in
  answer "/feed" no_options w = Rejected (FetchFailure "Failed to fetch")
  /\ result_of (apiRequest "/feed" no_options) w = Throw (FetchFailure "Failed to fetch")
  /\ localStorage (world_after (apiRequest "/feed" no_options) w) = localStorage w.
Proof.
  intros host w. split; [reflexivity|].
  destruct (@apiRequest_network_failure host "/feed" no_options w
              (FetchFailure "Failed to fetch") eq_refl) as (Hres & Hstore & _).
  auto.
Defined.

(** X8.  On a success, [apiRequest] returns the body read as JSON.  When
    the body is not JSON it throws a [SyntaxError], although the request
    succeeded; an empty body, as a 204 has, is such a body. *)
Theorem apiRequest_success_body `{host : Host}
    (endpoint : string) (options : RequestInit) (w : world) (resp : response) :
  answer endpoint options w = Responded resp ->
  ok resp = true ->
  (forall v, JSON_parse (body_text resp) = Some v ->
     result_of (apiRequest endpoint options) w = Normal v)
  /\ (JSON_parse (body_text resp) = None ->
      result_of (apiRequest endpoint options) w = Throw SyntaxError)
  /\ (body_text resp = "" ->
      result_of (apiRequest endpoint options) w = Throw SyntaxError).
Proof.
  intros Hanswer Hok.
  rewrite (apiRequest_success endpoint options w resp Hanswer Hok).
  repeat split.
  - now intros v ->.
  - now intros ->.
  - intros ->. now rewrite JSON_parse_empty.
Qed.

Lemma apiRequest_success_body_witness :
  let no_content := {| status := 204; body_text := "" |} in
  let host := SampleHost.sample None (SampleHost.always (Responded no_content)) in
  let w := Samples.browser ∅ in
  answer "/users/7/follow"
    {| method := Some "DELETE"; headers := None; body := NoBody |} w
    = Responded no_content
  /\ ok no_content = true
  /\ result_of (unfollowUser "7") w = Throw SyntaxError.
Proof.
  intros no_content host w. split; [reflexivity|]. split; [reflexivity|].
  apply (@apiRequest_success_body host "/users/7/follow"
           {| method := Some "DELETE"; headers := None; body := NoBody |}
           w no_content eq_refl eq_refl).
  reflexivity.
Defined.

(** X9.  On a response that is not a success and whose body is the JSON
    [null], reading [detail] fails: [apiRequest] throws a [TypeError], not
    the [Error] that carries a message. *)
Theorem apiRequest_null_error_body `{host : Host}
    (endpoint : string) (options : RequestInit) (w : world) (resp : response) :
  answer endpoint options w = Responded resp ->
  ok resp = false ->
  JSON_parse (body_text resp) = Some VNull ->
  result_of (apiRequest endpoint options) w = Throw TypeError.
Proof.
  intros Hanswer Hok Hbody.
  now rewrite (apiRequest_failure endpoint options w resp Hanswer Hok), Hbody.
Qed.

Lemma apiRequest_null_error_body_witness :
  let null_body := {| status := 500; body_text := "null" |} in
  let host := SampleHost.sample None (SampleHost.always (Responded null_body)) in
  let w := Samples.browser ∅ in
  answer "/feed" no_options w = Responded null_body
  /\ ok null_body = false
  /\ JSON_parse (body_text null_body) = Some VNull
  /\ result_of (apiRequest "/feed" no_options) w = Throw TypeError.
Proof.
  intros null_body host w. repeat (split; [reflexivity|]).
  apply (@apiRequest_null_error_body host "/feed" no_options w null_body);
    reflexivity.
Defined.

(** [ToString] of an array whose elements are all objects. *)
Lemma ToString_objects (items : list value) :
  Forall (fun x => exists fields, x = VObj fields) items ->
  ToString (VArr items) = String.concat "," (map (fun _ => "[object Object]") items).
Proof.
  intros Hall. simpl.
  induction Hall as [|x rest [fields ->] Hrest IH]; [reflexivity|].
  destruct rest as [|y rest]; [reflexivity|].
  simpl in *. now rewrite IH.
Qed.

(** X10.  When the [detail] of an error body is an array of objects, as
    the validation errors of the backend are, the message is
    [[object Object]] once for each, with commas between, and the empty
    string for the empty array.  The objects are those with no property
    [toString] of their own: on them [String] gives [[object Object]]. *)
Theorem apiRequest_detail_array `{host : Host}
    (endpoint : string) (options : RequestInit) (w : world) (resp : response)
    (fields : list (string * value)) (items : list value) :
  answer endpoint options w = Responded resp ->
  ok resp = false ->
  JSON_parse (body_text resp) = Some (VObj fields) ->
  own_property fields "detail" = Some (VArr items) ->
  Forall (fun x => exists entries,
            x = VObj entries /\ own_property entries "toString" = None) items ->
  result_of (apiRequest endpoint options) w =
    Throw (Error (String.concat "," (map (fun _ => "[object Object]") items))).
Proof.
  intros Hanswer Hok Hbody Hdetail Hall.
  rewrite (apiRequest_failure endpoint options w resp Hanswer Hok), Hbody, Hdetail.
  change (js_or (default VUndefined (Some (VArr items))) ?fallback)
    with (VArr items).
  rewrite ToString_objects; [reflexivity|].
  eapply Forall_impl; [exact Hall|].
  intros x (entries & -> & _). eauto.
Qed.

Lemma apiRequest_detail_array_witness :
  let complaint := VObj [("loc", VArr [VStr "body"; VStr "title"]); ("msg", VStr "field required")] in
  let unprocessable :=
    {| status := 422;
       body_text := Samples.text_of (VObj [("detail", VArr [complaint; complaint])]) |} in
  let host := SampleHost.sample None (SampleHost.always (Responded unprocessable)) in
  let w := Samples.browser ∅ in
  result_of (apiRequest "/videos" no_options) w
  = Throw (Error "[object Object],[object Object]").
Proof.
  intros complaint unprocessable host w.
  apply (@apiRequest_detail_array host "/videos" no_options w unprocessable
           [("detail", VArr [complaint; complaint])] [complaint; complaint]);
    try reflexivity.
  repeat constructor; eexists; split; reflexivity.
Defined.

(** ** The endpoint functions and the Store *)

Section LoginFacts.
Context {host : Host}.

(** [login], step by step: what [apiRequest] gave decides the rest. *)
Lemma login_unfold (data : LoginData) (w : world) :
  login data w =
  match apiRequest "/auth/login" (login_options data) w with
  | (Throw e, w1) => (Throw e, w1)
  | (Normal token, w1) =>
      match token with
      | VUndefined | VNull => (Throw TypeError, w1)
      | _ =>
          let access_token :=
            match token with
            | VObj fields => default VUndefined (own_property fields "access_token")
            | _ => VUndefined
            end in
          let user :=
            match token with
            | VObj fields => default VUndefined (own_property fields "user")
            | _ => VUndefined
            end in
          (Normal token,
           world_after (setUser user)
             (world_after (setToken (ToString access_token)) w1))
      end
  end.
Proof.
  unfold login, world_after, mbind, M_bind.
  destruct (apiRequest "/auth/login" (login_options data) w) as [[token|e] w1];
    [|reflexivity].
  destruct token; simpl; trivial;
    destruct w1 as [[] store evs]; reflexivity.
Qed.

(** The two writes of a session, one after the other. *)
Lemma store_session_world (t : string) (u : value) (w : world) :
  window w = true ->
  world_after (setUser u) (world_after (setToken t) w) =
  {| window := true;
     localStorage :=
       <["user" := default (ToString VUndefined) (JSON_stringify u)]>
         (<["access_token" := t]> (localStorage w));
     events :=
       (events w ++
        [EvSetItem "access_token" t;
         EvSetItem "user" (default (ToString VUndefined) (JSON_stringify u))])%list |}.
Proof.
  destruct w as [win store evs]. simpl. intros ->.
  unfold setToken, setUser. run. now rewrite <- app_assoc.
Qed.

End LoginFacts.

(** X11.  Every endpoint function but [login] leaves the Store alone: the
    storage is what it was and nothing was written to it, whether the
    call succeeds or fails. *)
Theorem endpoints_never_write `{host : Host} (c : endpoint_call) (w : world) :
  is_login c = false ->
  localStorage (world_after (run_call c) w) = localStorage w
  /\ storage_writes (events (world_after (run_call c) w)) = storage_writes (events w).
Proof.
  intros Hc.
  destruct c; try discriminate; simpl;
    unfold register, getCurrentUser, listVideos, getVideo, getVideoStream,
      uploadVideo, getUserProfile, getUserVideos, followUser, unfollowUser,
      getFollowers, getFollowing, getFeed;
    match goal with
    | |- context [apiRequest ?e ?o] =>
        destruct (apiRequest_keeps_store e o w) as (_ & Hstore & Hwrites)
    end; auto.
Qed.

Lemma endpoints_never_write_witness :
  let host := SampleHost.sample None (SampleHost.always (Responded Samples.login_succeeds)) in
  let w := Samples.browser {[ "access_token" := "old" ]} in
  let data :=
    {| register_username := "alice"; register_email := "alice@example.com";
       register_password := "pw" |} in
  result_of (run_call (CallRegister data)) w = Normal Samples.token_object
  /\ localStorage (world_after (run_call (CallRegister data)) w) = localStorage w
  /\ storage_writes (events (world_after (run_call (CallRegister data)) w)) = [].
Proof.
  intros host w data. split; [reflexivity|].
  apply (@endpoints_never_write host (CallRegister data) w eq_refl).
Defined.

(** X12.  What [login] writes.  With a window, when its request returns
    a JSON object with [access_token] the string [t] and [user] the value
    [u], [login] writes [t] under the token key, then the JSON text of [u]
    under the user key, and nothing else: every other key of the storage
    is as it was.  When its request returns the JSON [null], [login]
    throws a [TypeError] and has written nothing. *)
Theorem login_writes `{host : Host} (data : LoginData) (w : world) :
  (forall fields t u,
      window w = true ->
      result_of (apiRequest "/auth/login" (login_options data)) w = Normal (VObj fields) ->
      own_property fields "access_token" = Some (VStr t) ->
      own_property fields "user" = Some u ->
      storage_writes (events (world_after (login data) w)) =
        (storage_writes (events w)
         ++ [EvSetItem "access_token" t;
             EvSetItem "user" (default (ToString VUndefined) (JSON_stringify u))])%list
      /\ localStorage (world_after (login data) w) =
         <["user" := default (ToString VUndefined) (JSON_stringify u)]>
           (<["access_token" := t]> (localStorage w)))
  /\ (result_of (apiRequest "/auth/login" (login_options data)) w = Normal VNull ->
      result_of (login data) w = Throw TypeError
      /\ localStorage (world_after (login data) w) = localStorage w
      /\ storage_writes (events (world_after (login data) w)) = storage_writes (events w)).
Proof.
  destruct (apiRequest_keeps_store "/auth/login" (login_options data) w)
    as (Hwin & Hstore & Hwrites).
  unfold result_of, world_after in *. rewrite login_unfold.
  destruct (apiRequest "/auth/login" (login_options data) w) as [res w1].
  simpl in *. split.
  - intros fields t u Hw -> Htoken Huser. rewrite Hw in Hwin.
    rewrite Htoken, Huser. cbn [default from_option id ToString snd].
    rewrite (store_session_world _ _ w1 Hwin). simpl.
    now rewrite storage_writes_app, Hwrites, Hstore.
  - intros ->. simpl. auto.
Qed.

Lemma login_writes_witness :
  (let host := SampleHost.sample None (SampleHost.always (Responded Samples.login_succeeds)) in
   let w := Samples.browser {[ "access_token" := "old"; "theme" := "dark" ]} in
   window w = true
   /\ result_of (apiRequest "/auth/login" (login_options Samples.alice_login)) w
      = Normal Samples.token_object
   /\ storage_writes (events (world_after (login Samples.alice_login) w)) =
        [EvSetItem "access_token" "t";
         EvSetItem "user" (Samples.text_of Samples.alice)]
   /\ localStorage (world_after (login Samples.alice_login) w) =
      <["user" := Samples.text_of Samples.alice]>
        (<["access_token" := "t"]> (localStorage w)))
  /\
  (let null_body := {| status := 200; body_text := "null" |} in
   let host := SampleHost.sample None (SampleHost.always (Responded null_body)) in
   let w := Samples.browser {[ "access_token" := "old" ]} in
   result_of (apiRequest "/auth/login" (login_options Samples.alice_login)) w = Normal VNull
   /\ result_of (login Samples.alice_login) w = Throw TypeError
   /\ localStorage (world_after (login Samples.alice_login) w) = localStorage w).
Proof.
  split.
  - intros host w. split; [reflexivity|]. split; [reflexivity|].
    apply (proj1 (@login_writes host Samples.alice_login w)
             [("access_token", VStr "t"); ("token_type", VStr "bearer");
              ("user", Samples.alice)] "t" Samples.alice);
      reflexivity.
  - intros null_body host w. split; [reflexivity|].
    destruct (proj2 (@login_writes host Samples.alice_login w) eq_refl)
      as (Hthrow & Hstore & _).
    auto.
Defined.

(** X13.  [login] does not check what the backend sends.  With a window,
    when the answer is a success whose body is a JSON object with no
    [access_token], [login] returns normally and the Store holds the
    string [undefined] as the token, which every endpoint function then
    sends as [Bearer undefined]. *)
Theorem login_without_access_token `{host : Host}
    (data : LoginData) (w : world) (resp : response)
    (fields : list (string * value)) :
  window w = true ->
  answer "/auth/login" (login_options data) w = Responded resp ->
  ok resp = true ->
  JSON_parse (body_text resp) = Some (VObj fields) ->
  own_property fields "access_token" = None ->
  result_of (login data) w = Normal (VObj fields)
  /\ result_of getToken (world_after (login data) w) = Normal (Some "undefined")
  /\ (forall c, exists r,
        fetches (events (world_after (run_call c) (world_after (login data) w))) =
          (fetches (events (world_after (login data) w)) ++ [r])%list
        /\ header r "Authorization" = Some "Bearer undefined").
Proof.
  intros Hw Hanswer Hok Hbody Hnone.
  pose proof (apiRequest_success _ _ _ _ Hanswer Hok) as Hres. rewrite Hbody in Hres.
  destruct (apiRequest_keeps_store "/auth/login" (login_options data) w)
    as (Hwin & _ & _). rewrite Hw in Hwin.
  unfold result_of, world_after in *. rewrite login_unfold.
  destruct (apiRequest "/auth/login" (login_options data) w) as [res w1].
  simpl in *. subst res. rewrite Hnone.
  cbn [default from_option id ToString fst snd].
  rewrite (store_session_world _ _ w1 Hwin).
  set (w2 := {| window := true; localStorage := _; events := _ |}).
  assert (Htoken : result_of getToken w2 = Normal (Some "undefined")).
  { rewrite getToken_result. simpl.
    rewrite lookup_insert_ne by discriminate. now rewrite lookup_insert_eq. }
  split; [reflexivity|]. split; [exact Htoken|].
  intros c. destruct (run_call_fetches c w2) as (endpoint & options & _ & Hfetch).
  eexists. split; [exact Hfetch|].
  rewrite token_seen_result in Htoken. injection Htoken as ->.
  now apply header_with_token.
Qed.

Lemma login_without_access_token_witness :
  let odd := {| status := 200; body_text := Samples.text_of (VObj [("message", VStr "ok")]) |} in
  let host := SampleHost.sample None (SampleHost.always (Responded odd)) in
  let w := Samples.browser ∅ in
  result_of (login Samples.alice_login) w = Normal (VObj [("message", VStr "ok")])
  /\ result_of getToken (world_after (login Samples.alice_login) w)
     = Normal (Some "undefined").
Proof.
  intros odd host w.
  destruct (@login_without_access_token host Samples.alice_login w odd
              [("message", VStr "ok")] eq_refl eq_refl eq_refl eq_refl eq_refl)
    as (Hres & Htoken & _).
  auto.
Defined.

(** ** Sessions *)

(** X14.  After a [login] that succeeded with a token [t] that is not
    empty, every endpoint function sends [Authorization: Bearer t]. *)
Theorem login_then_call `{host : Host}
    (data : LoginData) (w : world) (resp : response)
    (fields : list (string * value)) (t : string) (c : endpoint_call) :
  window w = true ->
  answer "/auth/login" (login_options data) w = Responded resp ->
  ok resp = true ->
  JSON_parse (body_text resp) = Some (VObj fields) ->
  own_property fields "access_token" = Some (VStr t) ->
  t <> "" ->
  exists r,
    fetches (events (world_after (run_call c) (world_after (login data) w))) =
      (fetches (events (world_after (login data) w)) ++ [r])%list
    /\ header r "Authorization" = Some ("Bearer " ++ t).
Proof.
  intros Hw Hanswer Hok Hbody Htoken Ht.
  pose proof (apiRequest_success _ _ _ _ Hanswer Hok) as Hres. rewrite Hbody in Hres.
  destruct (apiRequest_keeps_store "/auth/login" (login_options data) w)
    as (Hwin & _ & _). rewrite Hw in Hwin.
  unfold result_of, world_after in *. rewrite login_unfold.
  destruct (apiRequest "/auth/login" (login_options data) w) as [res w1].
  simpl in *. subst res. rewrite Htoken.
  cbn [default from_option id ToString fst snd].
  rewrite (store_session_world _ _ w1 Hwin).
  set (w2 := {| window := true; localStorage := _; events := _ |}).
  assert (Hseen : result_of getToken w2 = Normal (Some t)).
  { rewrite getToken_result. simpl.
    rewrite lookup_insert_ne by discriminate. now rewrite lookup_insert_eq. }
  destruct (run_call_fetches c w2) as (endpoint & options & _ & Hfetch).
  eexists. split; [exact Hfetch|].
  rewrite token_seen_result in Hseen. injection Hseen as ->.
  now apply header_with_token.
Qed.

Lemma login_then_call_witness :
  let host := SampleHost.sample None (SampleHost.always (Responded Samples.login_succeeds)) in
  let w := Samples.browser ∅ in
  exists r,
    fetches (events (world_after (run_call CallGetCurrentUser)
                       (world_after (login Samples.alice_login) w))) =
      (fetches (events (world_after (login Samples.alice_login) w)) ++ [r])%list
    /\ header r "Authorization" = Some "Bearer t".
Proof.
  intros host w.
  apply (@login_then_call host Samples.alice_login w Samples.login_succeeds
           [("access_token", VStr "t"); ("token_type", VStr "bearer");
            ("user", Samples.alice)] "t" CallGetCurrentUser);
    try reflexivity.
  discriminate.
Defined.

(** X15.  After [removeToken], no endpoint function sends an
    [Authorization] header, whatever token was stored before. *)
Theorem removeToken_then_call `{host : Host} (c : endpoint_call) (w : world) :
  exists r,
    fetches (events (world_after (run_call c) (world_after removeToken w))) =
      (fetches (events w) ++ [r])%list
    /\ header r "Authorization" = None.
Proof.
  destruct (run_call_fetches c (world_after removeToken w))
    as (endpoint & options & Hnone & Hfetch).
  eexists. split.
  - rewrite Hfetch. f_equal.
    destruct w as [[] store evs]; unfold removeToken; run; trivial.
    rewrite fetches_app. simpl. apply app_nil_r.
  - pose proof (token_seen_result (world_after removeToken w)) as Hseen.
    rewrite getToken_after_removeToken in Hseen. injection Hseen as <-.
    now rewrite header_without_token.
Qed.

(** A session in which nobody logs in leaves the storage as it is. *)
Lemma run_calls_keep_store `{host : Host} (cs : list endpoint_call) (w : world) :
  forallb (fun c => negb (is_login c)) cs = true ->
  window (run_calls cs w) = window w
  /\ localStorage (run_calls cs w) = localStorage w.
Proof.
  revert w. induction cs as [|c cs IH]; intros w Hcs; simpl in *; [auto|].
  apply andb_prop in Hcs as [Hc Hcs]. apply negb_true_iff in Hc.
  destruct (run_call_keeps_store c w Hc) as [Hwin Hstore].
  destruct (IH (world_after (run_call c) w) Hcs) as [Hwin' Hstore'].
  split; congruence.
Qed.

(** X16.  A token that is stored and not empty goes with every request of
    a session in which nobody logs in: the calls issue one request each,
    each request carries [Authorization: Bearer t], and at the end the
    Store still holds [t]. *)
Theorem token_attached_in_session `{host : Host}
    (cs : list endpoint_call) (w : world) (t : string) :
  window w = true ->
  localStorage w !! "access_token" = Some t ->
  t <> "" ->
  forallb (fun c => negb (is_login c)) cs = true ->
  (exists rs,
     fetches (events (run_calls cs w)) = (fetches (events w) ++ rs)%list
     /\ length rs = length cs
     /\ Forall (fun r => header r "Authorization" = Some ("Bearer " ++ t)) rs)
  /\ result_of getToken (run_calls cs w) = Normal (Some t).
Proof.
  intros Hw Htoken Ht Hcs. split.
  - now apply token_attached_throughout.
  - destruct (run_calls_keep_store cs w Hcs) as [Hwin Hstore].
    now rewrite getToken_result, Hwin, Hstore, Hw, Htoken.
Qed.

Lemma token_attached_in_session_witness :
  let host := SampleHost.sample None (SampleHost.always (Responded Samples.bad_gateway)) in
  let w := Samples.browser {[ "access_token" := "t" ]} in
  let cs := [CallGetFeed; CallFollowUser "7"; CallGetVideo "42"] in
  (exists rs,
     fetches (events (run_calls cs w)) = rs
     /\ length rs = 3%nat
     /\ Forall (fun r => header r "Authorization" = Some "Bearer t") rs)
  /\ result_of getToken (run_calls cs w) = Normal (Some "t").
Proof.
  intros host w cs.
  destruct (@token_attached_in_session host cs w "t" eq_refl eq_refl)
    as ((rs & Hfetch & Hlen & Hall) & Hstill); [discriminate | reflexivity |].
  split; [|exact Hstill]. exists rs. auto.
Defined.

(** ** The requests of the endpoint functions *)

(** X17.  [uploadVideo] sends a POST whose form starts with the title and
    the file, and sets no header of its own: the request has no
    [Content-Type] header, and no header at all but [Authorization]. *)
Theorem uploadVideo_request `{host : Host} (data : UploadVideoData) (w : world) :
  exists r form,
    fetches (events (world_after (uploadVideo data) w)) = (fetches (events w) ++ [r])%list
    /\ method (init r) = Some "POST"
    /\ body (init r) =
       FormDataBody (("title", FormText (title data)) :: ("file", FormFile (file data)) :: form)
    /\ getAll form "title" = [] /\ getAll form "file" = []
    /\ header r "Content-Type" = None
    /\ (forall name, name <> "Authorization" -> header r name = None).
Proof.
  destruct data as [ti fi [[|c re]|] vi];
    (eexists _, _; split; [apply apiRequest_fetches|];
     split; [reflexivity|]; split; [reflexivity|];
     split; [reflexivity|]; split; [reflexivity|];
     split; [now rewrite header_other|];
     intros name Hname; now rewrite header_other).
Qed.

(** [register] and [login] send a POST whose body is the text of their
    form and whose [Content-Type] is that of a form. *)
Lemma form_requests `{host : Host}
    (rdata : RegisterData) (ldata : LoginData) (w : world) :
  (exists r,
     fetches (events (world_after (register rdata) w)) = (fetches (events w) ++ [r])%list
     /\ method (init r) = Some "POST"
     /\ header r "Content-Type" = Some "application/x-www-form-urlencoded"
     /\ body (init r) =
        TextBody (URLSearchParams_toString
          [("username", register_username rdata); ("email", register_email rdata);
           ("password", register_password rdata)]))
  /\ (exists r,
        fetches (events (world_after (login ldata) w)) = (fetches (events w) ++ [r])%list
        /\ method (init r) = Some "POST"
        /\ header r "Content-Type" = Some "application/x-www-form-urlencoded"
        /\ body (init r) =
           TextBody (URLSearchParams_toString
             [("username", login_username ldata); ("password", login_password ldata);
              ("grant_type", "password")])).
Proof.
  split.
  - eexists. split; [apply apiRequest_fetches|].
    split; [reflexivity|]. split; [|reflexivity].
    rewrite header_other by discriminate. reflexivity.
  - eexists. split; [rewrite login_fetches; apply apiRequest_fetches|].
    split; [reflexivity|]. split; [|reflexivity].
    rewrite header_other by discriminate. reflexivity.
Qed.

Lemma string_length_app (a b : string) :
  String.length (a ++ b) = (String.length a + String.length b)%nat.
Proof. induction a as [|c a IH]; simpl; [reflexivity|now rewrite IH]. Qed.

(** X18.  The base URL is never empty: an environment variable that is
    unset or empty gives way to the default.  So the URL of a request is
    never the bare endpoint. *)
Theorem base_url_not_empty `{host : Host}
    (endpoint : string) (options : RequestInit) (w : world) :
  API_BASE_URL <> ""
  /\ exists r,
       fetches (events (world_after (apiRequest endpoint options) w)) =
         (fetches (events w) ++ [r])%list
       /\ url r = API_BASE_URL ++ endpoint
       /\ (String.length endpoint < String.length (url r))%nat.
Proof.
  assert (Hbase : API_BASE_URL <> "").
  { unfold API_BASE_URL, or_default.
    destruct NEXT_PUBLIC_API_URL as [[|c s]|]; discriminate. }
  split; [exact Hbase|].
  eexists. split; [apply apiRequest_fetches|]. split; [reflexivity|].
  simpl. rewrite string_length_app.
  destruct API_BASE_URL; [congruence|]. simpl. lia.
Qed.

(** ** The form encoding *)

Lemma all_chars_app (p : ascii -> bool) (a b : string) :
  all_chars p (a ++ b) = all_chars p a && all_chars p b.
Proof.
  induction a as [|c a IH]; simpl; [reflexivity|].
  now rewrite IH, andb_assoc.
Qed.

(** A hexadecimal digit is a digit or a letter from A to F. *)
Lemma hex_digit_code (d : N) :
  (d < 16)%N ->
  N_of_ascii (hex_digit d) = (if (d <? 10)%N then 48 + d else 55 + d)%N.
Proof.
  intros Hd. unfold hex_digit. apply N_ascii_embedding.
  destruct (d <? 10)%N; lia.
Qed.

Lemma hex_digit_safe (d : N) :
  (d < 16)%N -> form_safe (N_of_ascii (hex_digit d)) = true.
Proof.
  intros Hd. rewrite (hex_digit_code d Hd). unfold form_safe.
  destruct (d <? 10)%N eqn:Hlt.
  - apply N.ltb_lt in Hlt.
    replace (48 <=? 48 + d)%N with true by (symmetry; apply N.leb_le; lia).
    replace (48 + d <=? 57)%N with true by (symmetry; apply N.leb_le; lia).
    reflexivity.
  - apply N.ltb_ge in Hlt.
    replace (65 <=? 55 + d)%N with true by (symmetry; apply N.leb_le; lia).
    replace (55 + d <=? 90)%N with true by (symmetry; apply N.leb_le; lia).
    simpl. now rewrite orb_true_r.
Qed.

Lemma hex_digit_inj (a b : N) :
  (a < 16)%N -> (b < 16)%N -> hex_digit a = hex_digit b -> a = b.
Proof.
  intros Ha Hb Heq. apply (f_equal N_of_ascii) in Heq.
  rewrite (hex_digit_code a Ha), (hex_digit_code b Hb) in Heq.
  destruct (a <? 10)%N eqn:Hal, (b <? 10)%N eqn:Hbl;
    rewrite ?N.ltb_lt, ?N.ltb_ge in *; lia.
Qed.

Lemma ascii_code_bound (c : ascii) : (N_of_ascii c < 256)%N.
Proof. apply N_ascii_bounded. Qed.

(** The three shapes of an encoded byte. *)
Lemma form_byte_cases (c : ascii) :
  (c = " "%char /\ form_byte c = "+")
  \/ (form_safe (N_of_ascii c) = true /\ form_byte c = String c "")
  \/ (form_safe (N_of_ascii c) = false
      /\ form_byte c =
         String "%" (String (hex_digit (N_of_ascii c / 16))
                       (String (hex_digit (N_of_ascii c mod 16)) ""))).
Proof.
  unfold form_byte. destruct (N_of_ascii c =? 32)%N eqn:Hsp.
  - left. split; [|reflexivity]. apply N.eqb_eq in Hsp.
    rewrite <- (ascii_N_embedding c), Hsp. reflexivity.
  - destruct (form_safe (N_of_ascii c)); auto.
Qed.

Lemma code_of_quotient (m n : N) :
  (m < 256)%N -> (n < 256)%N ->
  (m / 16 = n / 16)%N -> (m mod 16 = n mod 16)%N -> m = n.
Proof.
  intros Hm Hn Hq Hr.
  rewrite (N.div_mod m 16), (N.div_mod n 16) by lia. now rewrite Hq, Hr.
Qed.

(** An encoded byte at the head of a text tells the byte and the rest. *)
Lemma form_byte_inj (c1 c2 : ascii) (r1 r2 : string) :
  form_byte c1 ++ r1 = form_byte c2 ++ r2 -> c1 = c2 /\ r1 = r2.
Proof.
  destruct (form_byte_cases c1) as [[-> ->] | [[Hs1 ->] | [Hs1 ->]]];
    destruct (form_byte_cases c2) as [[-> ->] | [[Hs2 ->] | [Hs2 ->]]];
    cbv [String.append]; intros Heq; inversion Heq; subst;
    try (simpl in *; discriminate);
    try (split; congruence).
  split; [|reflexivity].
  pose proof (ascii_code_bound c1). pose proof (ascii_code_bound c2).
  assert (Hq : (N_of_ascii c1 / 16 = N_of_ascii c2 / 16)%N).
  { apply hex_digit_inj; trivial; apply N.Div0.div_lt_upper_bound; lia. }
  assert (Hr : (N_of_ascii c1 mod 16 = N_of_ascii c2 mod 16)%N).
  { apply hex_digit_inj; trivial; apply N.mod_lt; lia. }
  rewrite <- (ascii_N_embedding c1), <- (ascii_N_embedding c2).
  f_equal. now apply code_of_quotient.
Qed.

Lemma string_app_cons (c : ascii) (a b : string) :
  String c a ++ b = String c (a ++ b).
Proof. reflexivity. Qed.

Lemma string_app_nil_r (a : string) : a ++ "" = a.
Proof. induction a as [|c a IH]; [reflexivity|]. now rewrite string_app_cons, IH. Qed.

Lemma string_app_assoc (a b c : string) : (a ++ b) ++ c = a ++ (b ++ c).
Proof.
  induction a as [|x a IH]; [reflexivity|]. now rewrite !string_app_cons, IH.
Qed.

Lemma form_byte_chars (c : ascii) : all_chars form_text_char (form_byte c) = true.
Proof.
  pose proof (ascii_code_bound c) as Hc.
  destruct (form_byte_cases c) as [[-> ->] | [[Hs ->] | [Hs ->]]].
  - reflexivity.
  - simpl. unfold form_text_char. now rewrite Hs.
  - cbn [all_chars]. unfold form_text_char at 2 3.
    rewrite !hex_digit_safe; [reflexivity | apply N.mod_lt; lia |
                              apply N.Div0.div_lt_upper_bound; lia].
Qed.

Lemma form_encode_chars (s : string) :
  all_chars form_text_char (form_encode s) = true.
Proof.
  induction s as [|c s IH]; [reflexivity|].
  simpl. now rewrite all_chars_app, form_byte_chars, IH.
Qed.

Lemma form_encode_inj (a b : string) : form_encode a = form_encode b -> a = b.
Proof.
  revert b. induction a as [|c a IH]; intros [|d b] Heq; simpl in Heq.
  - reflexivity.
  - exfalso. destruct (form_byte_cases d) as [[_ Hd] | [[_ Hd] | [_ Hd]]];
      rewrite Hd in Heq; discriminate.
  - exfalso. destruct (form_byte_cases c) as [[_ Hc] | [[_ Hc] | [_ Hc]]];
      rewrite Hc in Heq; discriminate.
  - apply form_byte_inj in Heq as [-> Heq]. f_equal. now apply IH.
Qed.

(** A text with no separator in it cannot hold one. *)
Lemma no_separator (p : ascii -> bool) (sep : ascii) (x y rest : string) :
  p sep = false -> all_chars p x = true -> x = y ++ String sep rest -> False.
Proof.
  intros Hsep Hx ->. rewrite all_chars_app in Hx. simpl in Hx.
  rewrite Hsep in Hx. simpl in Hx. now rewrite andb_false_r in Hx.
Qed.

(** Two texts with no separator in them, each followed by one, are told
    apart from what follows them. *)
Lemma split_at_separator (p : ascii -> bool) (sep : ascii) (x y r1 r2 : string) :
  p sep = false -> all_chars p x = true -> all_chars p y = true ->
  x ++ String sep r1 = y ++ String sep r2 -> x = y /\ r1 = r2.
Proof.
  intros Hsep. revert y.
  induction x as [|c x IH]; intros [|d y] Hx Hy Heq;
    rewrite ?string_app_cons in Heq; simpl in Hx, Hy.
  - now injection Heq.
  - injection Heq as <- _. now rewrite Hsep in Hy.
  - injection Heq as -> _. now rewrite Hsep in Hx.
  - injection Heq as -> Heq.
    apply andb_prop in Hx as [_ Hx]. apply andb_prop in Hy as [_ Hy].
    destruct (IH y Hx Hy Heq) as [-> ->]. auto.
Qed.

(** The text of a list of pairs, pair by pair. *)
Lemma URLSearchParams_toString_cons (k v : string) (rest : URLSearchParams) :
  URLSearchParams_toString ((k, v) :: rest) =
  form_encode k ++ String "=" (form_encode v ++
    match rest with
    | [] => ""
    | _ :: _ => String "&" (URLSearchParams_toString rest)
    end).
Proof.
  destruct rest as [|[k' v'] rest]; cbn [URLSearchParams_toString].
  - now rewrite string_app_nil_r.
  - reflexivity.
Qed.

(** A form-encoded name or value is made of letters and digits of ASCII
    and of [*], [-], [.], [_], [+] and [%] only; so it holds no [&] and no
    [=], whatever the name or value holds. *)
Lemma form_encode_alphabet (s : string) :
  all_chars form_text_char (form_encode s) = true
  /\ all_chars (fun c => negb (Ascii.eqb c "&") && negb (Ascii.eqb c "="))
       (form_encode s) = true.
Proof.
  split; [apply form_encode_chars|].
  pose proof (form_encode_chars s) as Hs.
  induction (form_encode s) as [|c e IH]; [reflexivity|].
  simpl in *. apply andb_prop in Hs as [Hc He]. rewrite (IH He), andb_true_r.
  destruct (Ascii.eqb_spec c "&") as [->|_]; [discriminate|].
  destruct (Ascii.eqb_spec c "=") as [->|_]; [discriminate|reflexivity].
Qed.

(** The text of a form tells its pairs: two lists of pairs with the same
    text are the same list. *)
Lemma URLSearchParams_toString_inj (p1 p2 : URLSearchParams) :
  URLSearchParams_toString p1 = URLSearchParams_toString p2 -> p1 = p2.
Proof.
  revert p2. induction p1 as [|[k1 v1] p1 IH]; intros [|[k2 v2] p2].
  - reflexivity.
  - rewrite URLSearchParams_toString_cons. simpl.
    destruct (form_encode k2); discriminate.
  - rewrite URLSearchParams_toString_cons. simpl.
    destruct (form_encode k1); discriminate.
  - rewrite !URLSearchParams_toString_cons. intros Heq.
    apply (split_at_separator form_text_char) in Heq as [Hk Heq];
      [|reflexivity|apply form_encode_chars|apply form_encode_chars].
    apply form_encode_inj in Hk as ->.
    destruct p1 as [|q1 p1], p2 as [|q2 p2].
    + rewrite !string_app_nil_r in Heq. now apply form_encode_inj in Heq as ->.
    + exfalso. rewrite string_app_nil_r in Heq.
      now apply (no_separator form_text_char "&" _ _ _ eq_refl
                   (form_encode_chars v1) Heq).
    + exfalso. rewrite string_app_nil_r in Heq. symmetry in Heq.
      now apply (no_separator form_text_char "&" _ _ _ eq_refl
                   (form_encode_chars v2) Heq).
    + apply (split_at_separator form_text_char) in Heq as [Hv Heq];
        [|reflexivity|apply form_encode_chars|apply form_encode_chars].
      apply form_encode_inj in Hv as ->. now rewrite (IH _ Heq).
Qed.

(** X19.  The body that [login] or [register] sends tells what the call
    was given, for fields that are well-formed text (a JavaScript string
    with no unpaired surrogate, whose UTF-8 form the [string] is): two
    calls of [login] given different usernames or passwords send
    different bodies, and so do two calls of [register] given different
    usernames, emails or passwords.  A field that holds [&] or [=] cannot
    pass for another field. *)
Theorem form_body_tells_fields `{host : Host} :
  (forall (d1 d2 : LoginData) (w1 w2 : world) (r1 r2 : request),
      well_formed_login d1 = true ->
      well_formed_login d2 = true ->
      fetches (events (world_after (login d1) w1)) = (fetches (events w1) ++ [r1])%list ->
      fetches (events (world_after (login d2) w2)) = (fetches (events w2) ++ [r2])%list ->
      d1 <> d2 ->
      body (init r1) <> body (init r2))
  /\ (forall (d1 d2 : RegisterData) (w1 w2 : world) (r1 r2 : request),
        well_formed_register d1 = true ->
        well_formed_register d2 = true ->
        fetches (events (world_after (register d1) w1)) = (fetches (events w1) ++ [r1])%list ->
        fetches (events (world_after (register d2) w2)) = (fetches (events w2) ++ [r2])%list ->
        d1 <> d2 ->
        body (init r1) <> body (init r2)).
Proof.
  split.
  - intros d1 d2 w1 w2 r1 r2 _ _ H1 H2 Hdiff Hbody. apply Hdiff.
    rewrite login_fetches, apiRequest_fetches in H1, H2.
    apply app_inj_tail in H1 as [_ <-]. apply app_inj_tail in H2 as [_ <-].
    change (TextBody (URLSearchParams_toString (login_form d1)) =
            TextBody (URLSearchParams_toString (login_form d2))) in Hbody.
    assert (Htext : URLSearchParams_toString (login_form d1) =
                    URLSearchParams_toString (login_form d2)) by congruence.
    apply URLSearchParams_toString_inj in Htext.
    destruct d1, d2. unfold login_form, append in Htext. simpl in Htext.
    now injection Htext as -> ->.
  - intros d1 d2 w1 w2 r1 r2 _ _ H1 H2 Hdiff Hbody. apply Hdiff.
    unfold register in H1, H2. rewrite apiRequest_fetches in H1, H2.
    apply app_inj_tail in H1 as [_ <-]. apply app_inj_tail in H2 as [_ <-].
    destruct d1 as [u1 e1 p1], d2 as [u2 e2 p2].
    change (TextBody (URLSearchParams_toString
                        [("username", u1); ("email", e1); ("password", p1)]) =
            TextBody (URLSearchParams_toString
                        [("username", u2); ("email", e2); ("password", p2)])) in Hbody.
    assert (Htext : URLSearchParams_toString
                      [("username", u1); ("email", e1); ("password", p1)] =
                    URLSearchParams_toString
                      [("username", u2); ("email", e2); ("password", p2)]) by congruence.
    apply URLSearchParams_toString_inj in Htext.
    now injection Htext as -> -> ->.
Qed.

Lemma form_body_tells_fields_witness :
  let host := SampleHost.sample None (SampleHost.always (Responded Samples.unauthorized)) in
  let d1 := {| login_username := "a&password=b"; login_password := "c" |} in
  let d2 := {| login_username := "a"; login_password := "b&password=c" |} in
  let r1 := request_for None "/auth/login" (login_options d1) in
  let r2 := request_for None "/auth/login" (login_options d2) in
  well_formed_login d1 = true
  /\ well_formed_login d2 = true
  /\ fetches (events (world_after (login d1) (Samples.browser ∅))) = [r1]
  /\ fetches (events (world_after (login d2) (Samples.browser ∅))) = [r2]
  /\ body (init r1) = TextBody "username=a%26password%3Db&password=c&grant_type=password"
  /\ body (init r2) = TextBody "username=a&password=b%26password%3Dc&grant_type=password"
  /\ body (init r1) <> body (init r2).
Proof.
  intros host d1 d2 r1 r2. repeat (split; [reflexivity|]).
  apply (proj1 (@form_body_tells_fields host) d1 d2
           (Samples.browser ∅) (Samples.browser ∅) r1 r2);
    try reflexivity.
  discriminate.
Defined.

(** ** What a result tells *)



(** [login] hands on what its request gave: it returns the value
    [apiRequest] returned and throws what [apiRequest] threw, but for the
    values [null] and [undefined], on which it throws a [TypeError]. *)
Lemma login_result `{host : Host} (data : LoginData) (w : world) :
  result_of (login data) w =
  match result_of (apiRequest "/auth/login" (login_options data)) w with
  | Normal VNull | Normal VUndefined => Throw TypeError
  | other => other
  end.
Proof.
  unfold result_of. rewrite login_unfold.
  destruct (apiRequest "/auth/login" (login_options data) w) as [[token|e] w1];
    [|reflexivity].
  destruct token; reflexivity.
Qed.

(** X21.  Without a window, [login] issues its request and returns, and
    stores nothing: the request is all that happens, it carries no
    [Authorization] header, and afterwards [getToken] and [getUser] still
    return [null]. *)
Theorem login_without_window `{host : Host} (data : LoginData) (w : world) :
  window w = false ->
  exists r,
    events (world_after (login data) w) = (events w ++ [EvFetch r])%list
    /\ header r "Authorization" = None
    /\ result_of getToken (world_after (login data) w) = Normal None
    /\ result_of getUser (world_after (login data) w) = Normal VNull.
Proof.
  intros Hw.
  assert (Hevents :
            events (world_after (apiRequest "/auth/login" (login_options data)) w) =
            (events w ++
             [EvFetch (request_for None "/auth/login" (login_options data))])%list).
  { rewrite apiRequest_world. unfold token_seen, world_after.
    now rewrite (getToken_server w Hw). }
  destruct (apiRequest_keeps_store "/auth/login" (login_options data) w)
    as (Hwin & _ & _). rewrite Hw in Hwin.
  assert (Hworld : world_after (login data) w =
                   world_after (apiRequest "/auth/login" (login_options data)) w).
  { unfold world_after in *. rewrite login_unfold.
    destruct (apiRequest "/auth/login" (login_options data) w) as [[token|e] w1];
      [|reflexivity].
    simpl in *. destruct w1 as [win store evs]. simpl in Hwin. subst win.
    destruct token; reflexivity. }
  rewrite Hworld. eexists. split; [exact Hevents|].
  split; [reflexivity|].
  rewrite getToken_result, getUser_result, Hwin. auto.
Qed.

Lemma login_without_window_witness :
  let host := SampleHost.sample None (SampleHost.always (Responded Samples.login_succeeds)) in
  window Samples.server_side = false
  /\ result_of (login Samples.alice_login) Samples.server_side = Normal Samples.token_object
  /\ exists r,
       events (world_after (login Samples.alice_login) Samples.server_side) = [EvFetch r]
       /\ result_of getToken (world_after (login Samples.alice_login) Samples.server_side)
          = Normal None.
Proof.
  intros host. split; [reflexivity|]. split; [reflexivity|].
  destruct (@login_without_window host Samples.alice_login Samples.server_side eq_refl)
    as (r & Hevents & _ & Htoken & _).
  exists r. auto.
Defined.
